(** * cryptofiend: order-book store and Binance request pipeline

  A shallow embedding of [exchanges/orderbook/orderbook.go] and
  [exchanges/binance/binance.go], with the properties of the
  specification stated and proved over it.

  Conventions.
  - A Go [string] is a Rocq [string] (a sequence of 8-bit characters).
  - A Go [error] is its message; [nil] is [None].
  - A Go [map] created by [make] is a [gmap]; reading a missing key gives
    the zero value of the element type, writing through a missing inner
    map is a run-time panic ([None] in the functions that can reach one).
  - [time.Now()] is an explicit argument of the function that reads it.
  - A critical section ([m.Lock()] ... [defer m.Unlock()]) is one atomic
    function application. *)

From Stdlib Require Import ZArith String Ascii Floats.
From stdpp Require Import base option gmap strings list pretty.

Open Scope Z_scope.
Open Scope string_scope.

(** Go [error]: the message of the error value. *)
Abbreviation error := string (only parsing).

(** ** Package [currency/pair] *)

Module pair.

(** Modelled from the spec: the package [currency/pair] (the
    CurrencyPairCodec collaborator) is imported by both source files but
    is not part of the sources at hand.  [CurrencyItem] is a string type;
    a [CurrencyPair] carries the two symbols and the delimiter it was
    written with. *)
Abbreviation CurrencyItem := string (only parsing).

Record CurrencyPair := mkCurrencyPair {
  Delimiter : string;
  FirstCurrency : CurrencyItem;
  SecondCurrency : CurrencyItem
}.

Definition lower_byte (c : ascii) : ascii :=
  let n := N_of_ascii c in
  if ((65 <=? n) && (n <=? 90))%N then ascii_of_N (n + 32) else c.

Definition upper_byte (c : ascii) : ascii :=
  let n := N_of_ascii c in
  if ((97 <=? n) && (n <=? 122))%N then ascii_of_N (n - 32) else c.

Fixpoint map_bytes (f : ascii -> ascii) (s : string) : string :=
  match s with
  | EmptyString => EmptyString
  | String c s' => String (f c) (map_bytes f s')
  end.

(** Modelled from the spec: [CurrencyItem.Lower], "a lowercase/case-fold
    operation on a single currency symbol" (letters A-Z are folded). *)
Definition Lower (c : CurrencyItem) : CurrencyItem := map_bytes lower_byte c.

(** Modelled from the spec: [CurrencyItem.Upper], the upper-case
    counterpart of [Lower]. *)
Definition Upper (c : CurrencyItem) : CurrencyItem := map_bytes upper_byte c.

Definition GetFirstCurrency (p : CurrencyPair) : CurrencyItem := FirstCurrency p.
Definition GetSecondCurrency (p : CurrencyPair) : CurrencyItem := SecondCurrency p.

(** Modelled from the spec: [CurrencyPair.Pair], the pair written with its
    own delimiter. *)
Definition Pair (p : CurrencyPair) : CurrencyItem :=
  FirstCurrency p +:+ Delimiter p +:+ SecondCurrency p.

(** Modelled from the spec: [CurrencyPair.FormatPair], the
    "case/delimiter-aware formatting of a pair": a pair with the given
    delimiter and both symbols in the case chosen by the flag ("fixed
    delimiter, fixed case"). *)
Definition FormatPair (delimiter : string) (uppercase : bool)
    (p : CurrencyPair) : CurrencyPair :=
  let fold := if uppercase then Upper else Lower in
  {| Delimiter := delimiter;
     FirstCurrency := fold (FirstCurrency p);
     SecondCurrency := fold (SecondCurrency p) |}.

(** Two pairs are variants of one another when they name the same base
    and the same quote up to letter case; the delimiters are free. *)
Definition variant (p q : CurrencyPair) : Prop :=
  Lower (FirstCurrency p) = Lower (FirstCurrency q) /\
  Lower (SecondCurrency p) = Lower (SecondCurrency q).

#[global] Instance variant_dec p q : Decision (variant p q).
Proof. unfold variant. apply _. Defined.

End pair.

(** ** Package [exchanges/orderbook] *)

Module orderbook.

Definition ErrOrderbookForExchangeNotFound : string :=
  "Orderbook for exchange does not exist.".
Definition ErrPrimaryCurrencyNotFound : string :=
  "Error primary currency for orderbook not found.".
Definition ErrSecondaryCurrencyNotFound : string :=
  "Error secondary currency for orderbook not found.".
Definition Spot : string := "SPOT".

(** [Item]: [float64] fields are binary64 floats. *)
Record Item := mkItem {
  Amount : float;
  Price : float
}.

(** [Base]; a [time.Time] is the count of nanoseconds since the zero
    [Time], so that the zero value is [0]. *)
Record Base := mkBase {
  Pair : pair.CurrencyPair;
  CurrencyPair : string;
  Bids : list Item;
  Asks : list Item;
  LastUpdated : Z
}.

(** The zero value [Base{}]. *)
Definition Base_zero : Base :=
  {| Pair := pair.mkCurrencyPair "" "" "";
     CurrencyPair := "";
     Bids := [];
     Asks := [];
     LastUpdated := 0 |}.

#[global] Instance Base_inhabited : Inhabited Base := populate Base_zero.

(** [Orderbooks]: the mutex [m] is the critical section around each
    exported method and has no field here. *)
Record Orderbooks := mkOrderbooks {
  orderbooks : gmap string (gmap string (gmap string Base))
}.

(** [Init]. *)
Definition Init : Orderbooks := {| orderbooks := ∅ |}.

Definition formatCurrencyPair (p : pair.CurrencyPair) : pair.CurrencyPair :=
  pair.FormatPair "/" false p.

Definition formatCurrency (currency : pair.CurrencyItem) : pair.CurrencyItem :=
  pair.Lower currency.

Definition FirstCurrencyExists (o : Orderbooks) (currency : pair.CurrencyItem) : bool :=
  match orderbooks o !! formatCurrency currency with
  | Some _ => true
  | None => false
  end.

Definition SecondCurrencyExists (o : Orderbooks) (p : pair.CurrencyPair) : bool :=
  let fp := formatCurrencyPair p in
  match orderbooks o !! pair.GetFirstCurrency fp with
  | Some m =>
      match m !! pair.GetSecondCurrency fp with
      | Some _ => true
      | None => false
      end
  | None => false
  end.

(** [GetOrderbook]: the pair [(Base, error)] it returns. *)
Definition GetOrderbook (_ : string) (o : Orderbooks) (p : pair.CurrencyPair)
    (orderbookType : string) : Base * option error :=
  let fp := formatCurrencyPair p in
  if negb (FirstCurrencyExists o (pair.GetFirstCurrency fp)) then
    (Base_zero, Some ErrPrimaryCurrencyNotFound)
  else if negb (SecondCurrencyExists o fp) then
    (Base_zero,
     Some (ErrSecondaryCurrencyNotFound +:+ "-" +:+ pair.GetFirstCurrency fp
           +:+ "-" +:+ pair.GetSecondCurrency fp))
  else
    (((orderbooks o !!! pair.GetFirstCurrency fp) !!! pair.GetSecondCurrency fp)
       !!! orderbookType, None).

(** [ProcessOrderbook], with the reading of the clock as [now].  [None]
    is the panic of an assignment into a missing inner map. *)
Definition ProcessOrderbook (_ : string) (o : Orderbooks) (p : pair.CurrencyPair)
    (orderbookNew : Base) (orderbookType : string) (now : Z) : option Orderbooks :=
  let fp := formatCurrencyPair p in
  let orderbookNew :=
    {| Pair := Pair orderbookNew;
       CurrencyPair := pair.Pair fp;
       Bids := Bids orderbookNew;
       Asks := Asks orderbookNew;
       LastUpdated := now |} in
  if FirstCurrencyExists o (pair.GetFirstCurrency fp) then
    if negb (SecondCurrencyExists o fp) then
      let b : gmap string Base := {[ orderbookType := orderbookNew ]} in
      m1 ← orderbooks o !! pair.FirstCurrency fp;
      Some {| orderbooks :=
                <[ pair.FirstCurrency fp := <[ pair.SecondCurrency fp := b ]> m1 ]>
                  (orderbooks o) |}
    else
      m1 ← orderbooks o !! pair.FirstCurrency fp;
      m2 ← m1 !! pair.SecondCurrency fp;
      Some {| orderbooks :=
                <[ pair.FirstCurrency fp :=
                     <[ pair.SecondCurrency fp :=
                          <[ orderbookType := orderbookNew ]> m2 ]> m1 ]>
                  (orderbooks o) |}
  else
    let b : gmap string Base := {[ orderbookType := orderbookNew ]} in
    let a : gmap string (gmap string Base) := {[ pair.SecondCurrency fp := b ]} in
    Some {| orderbooks := <[ pair.FirstCurrency fp := a ]> (orderbooks o) |}.

(** *** Sequences of upserts *)

(** One call of [ProcessOrderbook]: its arguments and the clock it reads. *)
Record upsert := mkUpsert {
  u_exchange : string;
  u_pair : pair.CurrencyPair;
  u_book : Base;
  u_type : string;
  u_now : Z
}.

Definition apply_upsert (o : Orderbooks) (u : upsert) : option Orderbooks :=
  ProcessOrderbook (u_exchange u) o (u_pair u) (u_book u) (u_type u) (u_now u).

Fixpoint run (us : list upsert) (o : Orderbooks) : option Orderbooks :=
  match us with
  | [] => Some o
  | u :: us' => o' ← apply_upsert o u; run us' o'
  end.

(** The snapshot a call leaves in the store: the caller's snapshot with
    the canonical pair string and the time of the call. *)
Definition stored (u : upsert) : Base :=
  {| Pair := Pair (u_book u);
     CurrencyPair :=
       pair.Lower (pair.FirstCurrency (u_pair u)) +:+ "/" +:+
       pair.Lower (pair.SecondCurrency (u_pair u));
     Bids := Bids (u_book u);
     Asks := Asks (u_book u);
     LastUpdated := u_now u |}.

(** A call addresses the triple [(p, t)] when its pair is a variant of
    [p] and its book type is [t]. *)
Definition addresses (p : pair.CurrencyPair) (t : string) (u : upsert) : bool :=
  bool_decide (pair.variant (u_pair u) p /\ u_type u = t).

(** The most recent call of a sequence that addresses [(p, t)]. *)
Fixpoint last_upsert (us : list upsert) (p : pair.CurrencyPair) (t : string)
    : option upsert :=
  match us with
  | [] => None
  | u :: us' =>
      match last_upsert us' p t with
      | Some u' => Some u'
      | None => if addresses p t u then Some u else None
      end
  end.

(** The canonical keys of a pair. *)
Definition base_key (p : pair.CurrencyPair) : string := pair.Lower (pair.FirstCurrency p).
Definition quote_key (p : pair.CurrencyPair) : string := pair.Lower (pair.SecondCurrency p).

(** The snapshot reachable under a key triple, if any. *)
Definition lookup3 (o : Orderbooks) (b q t : string) : option Base :=
  m1 ← orderbooks o !! b; m2 ← m1 !! q; m2 !! t.

(** Writing a snapshot under a key triple, creating the missing levels. *)
Definition insert3 (o : Orderbooks) (b q t : string) (x : Base) : Orderbooks :=
  let m1 := default ∅ (orderbooks o !! b) in
  let m2 := default ∅ (m1 !! q) in
  {| orderbooks := <[ b := <[ q := <[ t := x ]> m2 ]> m1 ]> (orderbooks o) |}.

(** The store has an entry for a base; for a base and a quote. *)
Definition has_base (o : Orderbooks) (b : string) : Prop :=
  is_Some (orderbooks o !! b).

Definition has_pair (o : Orderbooks) (b q : string) : Prop :=
  exists m1, orderbooks o !! b = Some m1 /\ is_Some (m1 !! q).

(** A sample history of three calls: BTC-USD, eth_usd, then btc/usd. *)
Definition sample_book (price : float) (stamp : Z) : Base :=
  {| Pair := pair.mkCurrencyPair "-" "BTC" "USD";
     CurrencyPair := "BTC-USD";
     Bids := [mkItem 1 price];
     Asks := [mkItem 2 (price + 1)%float];
     LastUpdated := stamp |}.

Definition sample_upserts : list upsert :=
  [ mkUpsert "binance" (pair.mkCurrencyPair "-" "BTC" "USD") (sample_book 100 7) Spot 1000;
    mkUpsert "binance" (pair.mkCurrencyPair "_" "eth" "usd") (sample_book 5 8) Spot 2000;
    mkUpsert "kraken" (pair.mkCurrencyPair "/" "btc" "usd") (sample_book 101 9) Spot 3000 ].

(** The keys of a store are in canonical form, no level is empty, and
    every snapshot carries the pair string of its keys. *)
Definition canonical (o : Orderbooks) : Prop :=
  forall b m1, orderbooks o !! b = Some m1 ->
    pair.Lower b = b /\ m1 <> ∅ /\
    forall q m2, m1 !! q = Some m2 ->
      pair.Lower q = q /\ m2 <> ∅ /\
      forall t x, m2 !! t = Some x -> CurrencyPair x = b +:+ "/" +:+ q.

End orderbook.


(** ** Go standard library functions used by the client *)

(** [fmt]: the [%s] verb with string operands; [%v] and [%d] of an integer
    are its decimal numeral. *)
Module fmt.

Fixpoint Sprintf (format : string) (args : list string) : string :=
  match format with
  | EmptyString => EmptyString
  | String "%" (String "s" rest) =>
      match args with
      | a :: args' => a +:+ Sprintf rest args'
      | [] => "%!s(MISSING)" +:+ Sprintf rest []
      end
  | String c rest => String c (Sprintf rest args)
  end.

Definition decimal (z : Z) : string := pretty z.

End fmt.

(** [encoding/hex]. *)
Module hex.

Definition digit (n : N) : ascii :=
  if (n <? 10)%N then ascii_of_N (48 + n) else ascii_of_N (87 + n).

Fixpoint EncodeToString (src : list Byte.byte) : string :=
  match src with
  | [] => EmptyString
  | x :: src' =>
      let n := Byte.to_N x in
      String (digit (n / 16)%N) (String (digit (n mod 16)%N) (EncodeToString src'))
  end.

End hex.

(** [net/url]: [Values] and its [Encode]. *)
Module url.

Abbreviation Values := (gmap string (list string)) (only parsing).

Definition Values_Set (v : Values) (key value : string) : Values := <[ key := [value] ]> v.

Definition upperhex (n : N) : ascii :=
  if (n <? 10)%N then ascii_of_N (48 + n) else ascii_of_N (55 + n).

(** [shouldEscape(c, encodeQueryComponent)]: letters, digits and [-_.~]
    pass; every other byte is escaped. *)
Definition shouldEscape (c : ascii) : bool :=
  let n := N_of_ascii c in
  negb (((97 <=? n) && (n <=? 122)) || ((65 <=? n) && (n <=? 90)) ||
        ((48 <=? n) && (n <=? 57)) ||
        (n =? 45) || (n =? 95) || (n =? 46) || (n =? 126))%N.

Fixpoint QueryEscape (s : string) : string :=
  match s with
  | EmptyString => EmptyString
  | String c s' =>
      if shouldEscape c then
        if Ascii.eqb c " " then String "+" (QueryEscape s')
        else
          let n := N_of_ascii c in
          String "%" (String (upperhex (n / 16)%N) (String (upperhex (n mod 16)%N)
            (QueryEscape s')))
      else String c (QueryEscape s')
  end.

(** [sort.Strings] on the keys of a map (which are distinct). *)
Fixpoint insert_sorted (k : string) (ks : list string) : list string :=
  match ks with
  | [] => [k]
  | k' :: ks' => if String.leb k k' then k :: ks else k' :: insert_sorted k ks'
  end.

Definition sort_strings (ks : list string) : list string :=
  foldr insert_sorted [] ks.

Definition Encode (v : Values) : string :=
  let keys := sort_strings (fst <$> map_to_list v) in
  String.concat "&"
    (flat_map
       (fun k => (fun x => QueryEscape k +:+ "=" +:+ QueryEscape x) <$> (v !!! k))
       keys).

End url.

(** ** Package [exchanges/binance] *)

Module binance.

#[local] Open Scope Z_scope.

Definition binanceBaseURL : string := "https://www.binance.com/".
Definition binanceExchangeInfoPath : string := "api/v1/exchangeInfo".
Definition binanceAccountPath : string := "api/v3/account".
Definition binanceOpenOrdersPath : string := "api/v3/openOrders".
Definition binanceOrderPath : string := "api/v3/order".
Definition binanceOrderTestPath : string := "api/v3/order/test".
Definition binanceDepthPath : string := "api/v1/depth".

Definition InvalidTimestampErrCode : Z := -1021.

(** Fixed-width arithmetic: [int64] subtraction and [uint] increment wrap
    around (a 64-bit [uint]). *)
Definition wrap_int64 (z : Z) : Z := (z + 2 ^ 63) mod 2 ^ 64 - 2 ^ 63.
Definition wrap_uint (z : Z) : Z := z mod 2 ^ 64.

Record rateLimitInfo := mkRateLimitInfo {
  StartTime : Z;
  RequestCount : Z
}.

(** [Binance].  Modelled from the spec: the embedded [exchange.Base] is
    declared outside the sources at hand; these are the fields of it that
    the client reads.  [rateLimits] maps a key to the record its pointer
    refers to; a missing key is the [nil] pointer. *)
Record Binance := mkBinance {
  Name : string;
  Verbose : bool;
  AuthenticatedAPISupport : bool;
  APIKey : string;
  APISecret : string;
  rateLimits : gmap string rateLimitInfo
}.

Definition with_rateLimits (b : Binance) (m : gmap string rateLimitInfo) : Binance :=
  {| Name := Name b; Verbose := Verbose b;
     AuthenticatedAPISupport := AuthenticatedAPISupport b;
     APIKey := APIKey b; APISecret := APISecret b;
     rateLimits := m |}.

(** Modelled from the spec: [ErrorInfo], the "JSON object with integer
    [code] and string [message]", is declared outside the sources at hand. *)
Record ErrorInfo := mkErrorInfo {
  Code : Z;
  Message : string
}.

(** What is handed to [common.SendHTTPRequest2]: method, URL, headers and
    the body reader ([None] for [nil]). *)
Record Request := mkRequest {
  req_method : string;
  req_url : string;
  req_headers : gmap string (list string);
  req_body : option string
}.

(** What one call reads from its surroundings: the clock at line 259
    ([time.Now().Unix()]), the clock at line 200 ([time.Now().UnixNano()]),
    and the answer [(resp, statusCode, err)] of the transport. *)
Record Env := mkEnv {
  now_Unix : Z;
  now_UnixNano : Z;
  SendHTTPRequest2 : Request -> string * Z * option error
}.

Abbreviation addr := nat (only parsing).

(** How a call of [SendRateLimitedHTTPRequest] ends. *)
Inductive outcome :=
| Returned (err : option error)
| Panicked.

Section Client.

(** The contents of a memory cell. *)
Context {Data : Type}.

(** The dynamic content of an [interface{}] argument: [nil], a value of a
    non-pointer type [T], or a pointer of type [*T] ([None]: the nil
    pointer). *)
Inductive value :=
| Nil
| Val (T : string) (d : Data)
| Ptr (T : string) (a : option addr).

(** Memory cells and the requests handed to the transport so far. *)
Record World := mkWorld {
  heap : gmap addr Data;
  sent : list Request
}.

(** Functions, constants and types of the repository and of [reflect] that
    the client uses and that are declared outside the sources at hand. *)
Class Externals := {
  (** [reflect]: a value of the first type may be [Set] into a variable of
      the second *)
  AssignableTo : string -> string -> bool;
  (** [common.JSONDecode(data, &result)]: the memory afterwards and the error *)
  JSONDecode : string -> value -> gmap addr Data -> gmap addr Data * option error;
  (** [common.JSONDecode(data, &errInfo)] *)
  JSONDecodeErrorInfo : string -> ErrorInfo * option error;
  (** [common.HashSHA256], [common.GetHMAC] *)
  HashSHA256 : Z;
  GetHMAC : Z -> list Byte.byte -> list Byte.byte -> list Byte.byte;
  (** [exchange.WarningAuthenticatedRequestWithoutCredentialsSet] *)
  WarningAuthenticatedRequestWithoutCredentialsSet : string;
  (** [MarketData{}] *)
  MarketData_zero : Data
}.

Context `{!Externals}.

(** [SendHTTPRequest]; writing to the log ([b.Verbose]) is left out. *)
Definition SendHTTPRequest (b : Binance) (env : Env) (method path : string)
    (params : url.Values) (sign : bool) (result : value) (w : World)
    : (Z * option error) * World :=
  if negb (AuthenticatedAPISupport b) then
    ((0, Some (fmt.Sprintf WarningAuthenticatedRequestWithoutCredentialsSet [Name b])), w)
  else
    let headers : gmap string (list string) := {[ "Accept" := ["application/json"] ]} in
    let payload := if (0 <? size params)%nat then url.Encode params else "" in
    let '(payload, headers) :=
      if sign then
        let recvWindow := 5000 in
        let timestamp := Z.quot (now_UnixNano env) (1000 * 1000) in
        let timeWindow :=
          "timestamp=" +:+ fmt.decimal timestamp +:+
          "&recvWindow=" +:+ fmt.decimal recvWindow in
        let payload :=
          if negb (String.eqb payload "") then payload +:+ "&" +:+ timeWindow
          else timeWindow in
        let hmac :=
          GetHMAC HashSHA256 (list_byte_of_string payload)
            (list_byte_of_string (APISecret b)) in
        (payload +:+ "&signature=" +:+ hex.EncodeToString hmac,
         <[ "X-MBX-APIKEY" := [APIKey b] ]> headers)
      else (payload, headers) in
    let req :=
      if String.eqb method "GET" then
        mkRequest method (binanceBaseURL +:+ path +:+ "?" +:+ payload) headers None
      else
        mkRequest method (binanceBaseURL +:+ path)
          (<[ "Content-Type" := ["application/x-www-form-urlencoded"] ]> headers)
          (Some payload) in
    let '(resp, statusCode, err) := SendHTTPRequest2 env req in
    let w := {| heap := heap w; sent := sent w ++ [req] |} in
    match err with
    | Some e => ((0, Some e), w)
    | None =>
        if (200 <=? statusCode) && (statusCode <=? 299) then
          match JSONDecode resp result (heap w) with
          | (h, Some _) =>
              ((statusCode, Some "failed to unmarshal response"),
               {| heap := h; sent := sent w |})
          | (h, None) => ((0, None), {| heap := h; sent := sent w |})
          end
        else
          match JSONDecodeErrorInfo resp with
          | (_, Some _) => ((0, Some "failed to unmarshal error info"), w)
          | (errInfo, None) => ((Code errInfo, Some (Message errInfo)), w)
          end
    end.

(** Lines 267-281 of [SendRateLimitedHTTPRequest]: the result is set to the
    default value through [reflect].  [Set] panics on the zero [Value] (the
    [Elem] of a nil pointer) and on a value that is not assignable. *)
Definition setResultToDefault (result defaultValue : value) (h : gmap addr Data)
    : outcome * gmap addr Data :=
  match result with
  | Ptr T (Some a) =>
      match defaultValue with
      | Nil => (Returned (Some "default value must be not be nil"), h)
      | Ptr T' None => (Panicked, h)
      | Ptr T' (Some a') =>
          match h !! a' with
          | Some d => if AssignableTo T' T then (Returned None, <[ a := d ]> h)
                      else (Panicked, h)
          | None => (Panicked, h)
          end
      | Val T' d => if AssignableTo T' T then (Returned None, <[ a := d ]> h)
                    else (Panicked, h)
      end
  | _ => (Returned (Some "result must be a non-nil pointer"), h)
  end.

(** [SendRateLimitedHTTPRequest]. *)
Definition SendRateLimitedHTTPRequest (b : Binance) (env : Env) (requestsPerMin : Z)
    (method path : string) (params : url.Values) (result defaultValue : value)
    (w : World) : outcome * Binance * World :=
  let rateLimit :=
    match rateLimits b !! (method +:+ path) with
    | Some rl => rl
    | None => mkRateLimitInfo 0 0
    end in
  let curTimeStamp := now_Unix env in
  let rateLimit :=
    if (StartTime rateLimit =? 0) ||
       (wrap_int64 (curTimeStamp - StartTime rateLimit) >? 90)
    then mkRateLimitInfo curTimeStamp 0
    else rateLimit in
  if RequestCount rateLimit <? requestsPerMin then
    let rateLimit :=
      mkRateLimitInfo (StartTime rateLimit) (wrap_uint (RequestCount rateLimit + 1)) in
    let b := with_rateLimits b (<[ method +:+ path := rateLimit ]> (rateLimits b)) in
    let '(_, err, w) := SendHTTPRequest b env method path params true result w in
    (Returned err, b, w)
  else
    let b := with_rateLimits b (<[ method +:+ path := rateLimit ]> (rateLimits b)) in
    let '(out, h) := setResultToDefault result defaultValue (heap w) in
    (out, b, {| heap := h; sent := sent w |}).

(** [FetchMarketData]: [&response] is a fresh cell holding [MarketData{}];
    the function returns that pointer and the error. *)
Definition FetchMarketData (b : Binance) (env : Env) (symbol : string) (limit : Z)
    (w : World) : (addr * option error) * World :=
  let v := url.Values_Set ∅ "symbol" symbol in
  let v := if limit >? -1 then url.Values_Set v "limit" (fmt.decimal limit) else v in
  let response := fresh (dom (heap w)) in
  let w := {| heap := <[ response := MarketData_zero ]> (heap w); sent := sent w |} in
  let '(_, err, w) :=
    SendHTTPRequest b env "GET" binanceDepthPath v false
      (Ptr "MarketData" (Some response)) w in
  ((response, err), w).

End Client.

Arguments value : clear implicits.
Arguments World : clear implicits.
Arguments Externals : clear implicits.

(** Modelled from the spec: the "configured display format {delimiter,
    upper/lowercase flag}" and the entries of the "mapping from venue symbol
    to currency pair" are declared outside the sources at hand; [Symbols]
    holds the two fields of [Binance] that the symbol translation reads. *)
Record CurrencyPairFormat := mkCurrencyPairFormat {
  Delimiter : string;
  Uppercase : bool
}.

Record CurrencyPairInfo := mkCurrencyPairInfo {
  Currency : pair.CurrencyPair
}.

Record Symbols := mkSymbols {
  RequestCurrencyPairFormat : CurrencyPairFormat;
  currencyPairs : gmap string CurrencyPairInfo
}.

(** [SymbolToCurrencyPair]. *)
Definition SymbolToCurrencyPair (b : Symbols) (symbol : string)
    : pair.CurrencyPair * option error :=
  match currencyPairs b !! symbol with
  | Some p =>
      (pair.FormatPair (Delimiter (RequestCurrencyPairFormat b))
         (Uppercase (RequestCurrencyPairFormat b)) (Currency p), None)
  | None =>
      (pair.mkCurrencyPair "" "" "",
       Some (fmt.Sprintf "no currency pair found for '%s' symbol" [symbol]))
  end.

(** [PostOrderParams]; [OrderSide], [OrderType] and [TimeInForce] are string
    types. *)
Record PostOrderParams := mkPostOrderParams {
  Symbol : string;
  Side : string;
  Type' : string;
  TimeInForce : string;
  Quantity : float;
  Price : float;
  NewClientOrderID : string;
  StopPrice : float;
  IcebergQty : float;
  ValidateOnly : bool
}.

Section Orders.

Context {Data : Type} `{!Externals Data}.

(** The zero values [AccountInfo{}], [[]Order{}], [PostOrderAckResponse{}],
    [Order{}] and [DeleteOrderResponse{}] of types declared outside the
    sources at hand. *)
Variable AccountInfo_zero : Data.
Variable Orders_empty : Data.
Variable PostOrderAckResponse_zero : Data.
Variable Order_zero : Data.
Variable DeleteOrderResponse_zero : Data.

(** [strconv.FormatFloat(x, 'f', -1, 64)]. *)
Variable FormatFloat : float -> string.

(** [response := T{}] followed by [&response]: a fresh cell. *)
Definition alloc (w : World Data) (d : Data) : addr * World Data :=
  let response := fresh (dom (heap w)) in
  (response, {| heap := <[ response := d ]> (heap w); sent := sent w |}).

(** [FetchAccountInfo]. *)
Definition FetchAccountInfo (b : Binance) (env : Env) (w : World Data)
    : (addr * option error) * World Data :=
  let '(response, w) := alloc w AccountInfo_zero in
  let '(_, err, w) :=
    SendHTTPRequest b env "GET" binanceAccountPath ∅ true
      (Ptr "AccountInfo" (Some response)) w in
  ((response, err), w).

(** [FetchOpenOrders]: the slice [response] itself is returned. *)
Definition FetchOpenOrders (b : Binance) (env : Env) (w : World Data)
    : (Data * option error) * World Data :=
  let '(response, w) := alloc w Orders_empty in
  let '(_, err, w) :=
    SendHTTPRequest b env "GET" binanceOpenOrdersPath ∅ true
      (Ptr "[]Order" (Some response)) w in
  ((default Orders_empty (heap w !! response), err), w).

(** Lines 105-121: the parameters of [PostOrderAck]. *)
Definition post_order_values (params : PostOrderParams) : url.Values :=
  let v := url.Values_Set ∅ "symbol" (Symbol params) in
  let v := url.Values_Set v "side" (Side params) in
  let v := url.Values_Set v "type" (Type' params) in
  let v := url.Values_Set v "timeInForce" (TimeInForce params) in
  let v := url.Values_Set v "quantity" (FormatFloat (Quantity params)) in
  let v := url.Values_Set v "price" (FormatFloat (Price params)) in
  let v :=
    if negb (String.eqb (NewClientOrderID params) "")
    then url.Values_Set v "newClientOrderId" (NewClientOrderID params) else v in
  let v :=
    if negb (PrimFloat.eqb (StopPrice params) 0)
    then url.Values_Set v "stopPrice" (FormatFloat (StopPrice params)) else v in
  let v :=
    if negb (PrimFloat.eqb (IcebergQty params) 0)
    then url.Values_Set v "icebergQty" (FormatFloat (IcebergQty params)) else v in
  url.Values_Set v "newOrderRespType" "ACK".

(** [PostOrderAck]. *)
Definition PostOrderAck (b : Binance) (env : Env) (params : PostOrderParams)
    (w : World Data) : (addr * option error) * World Data :=
  let v := post_order_values params in
  let '(response, w) := alloc w PostOrderAckResponse_zero in
  let path := if ValidateOnly params then binanceOrderTestPath else binanceOrderPath in
  let '(_, err, w) :=
    SendHTTPRequest b env "POST" path v true
      (Ptr "PostOrderAckResponse" (Some response)) w in
  ((response, err), w).

(** Lines 134-141 and 149-156: the parameters of [FetchOrder] and of
    [DeleteOrder]. *)
Definition order_values (symbol : string) (orderID : Z) (clientOrderID : string)
    : url.Values :=
  let v := url.Values_Set ∅ "symbol" symbol in
  let v :=
    if negb (orderID =? 0) then url.Values_Set v "orderId" (fmt.decimal orderID)
    else v in
  if negb (String.eqb clientOrderID "")
  then url.Values_Set v "origClientOrderId" clientOrderID else v.

(** [FetchOrder]. *)
Definition FetchOrder (b : Binance) (env : Env) (symbol : string) (orderID : Z)
    (clientOrderID : string) (w : World Data) : (addr * option error) * World Data :=
  let v := order_values symbol orderID clientOrderID in
  let '(response, w) := alloc w Order_zero in
  let '(_, err, w) :=
    SendHTTPRequest b env "GET" binanceOrderPath v true
      (Ptr "Order" (Some response)) w in
  ((response, err), w).

(** [DeleteOrder]: only the error is returned. *)
Definition DeleteOrder (b : Binance) (env : Env) (symbol : string) (orderID : Z)
    (clientOrderID : string) (w : World Data) : option error * World Data :=
  let v := order_values symbol orderID clientOrderID in
  let '(response, w) := alloc w DeleteOrderResponse_zero in
  let '(_, err, w) :=
    SendHTTPRequest b env "DELETE" binanceOrderPath v true
      (Ptr "DeleteOrderResponse" (Some response)) w in
  (err, w).

End Orders.

End binance.

(** ** Vocabulary for the properties of the client *)

Module binance_spec.
Import binance.

#[local] Open Scope Z_scope.

Section Vocabulary.
Context {Data : Type} `{!Externals Data}.

(** The window record of an endpoint; a key never used stands for the
    record that the first call creates. *)
Definition entry (b : Binance) (method path : string) : rateLimitInfo :=
  default (mkRateLimitInfo 0 0) (rateLimits b !! (method +:+ path)).

(** Seconds from the start of the endpoint's window to the clock of a call. *)
Definition elapsed (b : Binance) (env : Env) (method path : string) : Z :=
  now_Unix env - StartTime (entry b method path).

(** The window count a call finds, after the reset if the window is over. *)
Definition window_count (b : Binance) (env : Env) (method path : string) : Z :=
  if 90 <? elapsed b env method path then 0
  else RequestCount (entry b method path).

(** The window start a call leaves behind. *)
Definition window_start (b : Binance) (env : Env) (method path : string) : Z :=
  if 90 <? elapsed b env method path then now_Unix env
  else StartTime (entry b method path).

(** The test of line 260 and the count that the test of line 264 reads,
    as the code computes them. *)
Definition window_over (b : Binance) (env : Env) (method path : string) : bool :=
  (StartTime (entry b method path) =? 0) ||
  (wrap_int64 (now_Unix env - StartTime (entry b method path)) >? 90).

Definition count_found (b : Binance) (env : Env) (method path : string) : Z :=
  if window_over b env method path then 0
  else RequestCount (entry b method path).

(** What the default value has to offer to a result of type [*T]: the
    value itself, or the value its pointer refers to, when assignable. *)
Definition default_content (T : string) (defaultValue : value Data)
    (h : gmap addr Data) : option Data :=
  match defaultValue with
  | Val T' d => if AssignableTo T' T then Some d else None
  | Ptr T' (Some a') => if AssignableTo T' T then h !! a' else None
  | _ => None
  end.

(** Clock readings: a Unix time later than 1970-01-01T00:01:30Z. *)
Definition clock_ok (t : Z) : Prop := 90 < t < 2 ^ 62.

(** A window record under budget [n]: the count is within the budget, the
    start is unset or a clock reading. *)
Definition entry_ok (n : Z) (rl : rateLimitInfo) : Prop :=
  0 <= RequestCount rl <= n /\ (StartTime rl = 0 \/ clock_ok (StartTime rl)).

(** The two ways a rate-limited call goes on: lines 284-285, the request
    is sent for signing and dispatch; lines 267-281, the default value. *)
Definition network_path (b : Binance) (env : Env) (method path : string)
    (params : url.Values) (result : value Data) (w : World Data)
    : outcome * Binance * World Data :=
  let r := SendHTTPRequest b env method path params true result w in
  (Returned (snd (fst r)), b, snd r).

Definition default_path (b : Binance) (result defaultValue : value Data)
    (w : World Data) : outcome * Binance * World Data :=
  let r := setResultToDefault result defaultValue (heap w) in
  (fst r, b, {| heap := snd r; sent := sent w |}).

(** The client after the accounting of a call that found count [c]. *)
Definition counted (b : Binance) (env : Env) (method path : string) (c : Z) : Binance :=
  with_rateLimits b
    (<[ method +:+ path := mkRateLimitInfo (window_start b env method path) c ]>
       (rateLimits b)).

(** One call of a sequence to an endpoint. *)
Record Call := mkCall {
  c_env : Env;
  c_params : gmap string (list string);
  c_result : value Data;
  c_default : value Data
}.

Definition call (n : Z) (method path : string) (c : Call) (b : Binance)
    (w : World Data) : outcome * Binance * World Data :=
  SendRateLimitedHTTPRequest b (c_env c) n method path
    (c_params c) (c_result c) (c_default c) w.

Fixpoint run_calls (n : Z) (method path : string) (cs : list Call)
    (b : Binance) (w : World Data) : list outcome * Binance * World Data :=
  match cs with
  | [] => ([], b, w)
  | c :: cs' =>
      let r := call n method path c b w in
      let r' := run_calls n method path cs' (snd (fst r)) (snd r) in
      (fst (fst r) :: fst (fst r'), snd (fst r'), snd r')
  end.

(** The calls of [cs], the first of which is call number [i] of its window,
    go to the network while the number is below the budget and to the
    default value from then on. *)
Fixpoint window_paths (n : Z) (method path : string) (cs : list Call) (i : Z)
    (b : Binance) (w : World Data) : Prop :=
  match cs with
  | [] => True
  | c :: cs' =>
      let r := call n method path c b w in
      (if i <? n
       then r = network_path (snd (fst r)) (c_env c) method path
                  (c_params c) (c_result c) w
       else r = default_path (snd (fst r)) (c_result c) (c_default c) w) /\
      window_paths n method path cs' (i + 1) (snd (fst r)) (snd r)
  end.

(** Every call of [cs] goes to the network. *)
Fixpoint every_call_sent (n : Z) (method path : string) (cs : list Call)
    (b : Binance) (w : World Data) : Prop :=
  match cs with
  | [] => True
  | c :: cs' =>
      let r := call n method path c b w in
      r = network_path (snd (fst r)) (c_env c) method path (c_params c) (c_result c) w /\
      RequestCount (entry (snd (fst r)) method path) = 1 /\
      every_call_sent n method path cs' (snd (fst r)) (snd r)
  end.

(** The payload of a signed call, by the wire protocol: the encoded
    parameters, the time stamp in milliseconds and the receive window. *)
Definition signed_text (params : url.Values) (unixNano : Z) : string :=
  let timeWindow :=
    "timestamp=" +:+ fmt.decimal (unixNano ÷ 1000000) +:+ "&recvWindow=5000" in
  if String.eqb (url.Encode params) "" then timeWindow
  else url.Encode params +:+ "&" +:+ timeWindow.

(** The hexadecimal HMAC-SHA256 of that payload under a secret. *)
Definition signature (secret : string) (params : url.Values) (unixNano : Z) : string :=
  hex.EncodeToString
    (GetHMAC HashSHA256 (list_byte_of_string (signed_text params unixNano))
       (list_byte_of_string secret)).

Definition signed_payload (secret : string) (params : url.Values) (unixNano : Z)
    : string :=
  signed_text params unixNano +:+ "&signature=" +:+ signature secret params unixNano.

(** The request on the wire: the payload in the query string of a GET, in
    a form-encoded body otherwise; a signed request carries the signed
    payload and the API key header. *)
Definition wire_request (b : Binance) (env : Env) (method path : string)
    (params : url.Values) (sign : bool) : Request :=
  let payload :=
    if sign then signed_payload (APISecret b) params (now_UnixNano env)
    else url.Encode params in
  let headers : gmap string (list string) :=
    if sign then <[ "X-MBX-APIKEY" := [APIKey b] ]> {[ "Accept" := ["application/json"] ]}
    else {[ "Accept" := ["application/json"] ]} in
  if String.eqb method "GET" then
    mkRequest method (binanceBaseURL +:+ path +:+ "?" +:+ payload) headers None
  else
    mkRequest method (binanceBaseURL +:+ path)
      (<[ "Content-Type" := ["application/x-www-form-urlencoded"] ]> headers)
      (Some payload).

(** What [SendHTTPRequest] makes of the transport's answer. *)
Definition decoded (resp : string) (statusCode : Z) (err : option error)
    (result : value Data) (w : World Data) : (Z * option error) * World Data :=
  match err with
  | Some e => ((0, Some e), w)
  | None =>
      if (200 <=? statusCode) && (statusCode <=? 299) then
        match JSONDecode resp result (heap w) with
        | (h, Some _) =>
            ((statusCode, Some "failed to unmarshal response"),
             {| heap := h; sent := sent w |})
        | (h, None) => ((0, None), {| heap := h; sent := sent w |})
        end
      else
        match JSONDecodeErrorInfo resp with
        | (_, Some _) => ((0, Some "failed to unmarshal error info"), w)
        | (errInfo, None) => ((Code errInfo, Some (Message errInfo)), w)
        end
  end.

(** The client with another API key. *)
Definition with_APIKey (b : Binance) (k : string) : Binance :=
  {| Name := Name b; Verbose := Verbose b;
     AuthenticatedAPISupport := AuthenticatedAPISupport b;
     APIKey := k; APISecret := APISecret b;
     rateLimits := rateLimits b |}.

End Vocabulary.

(** A stand-in for the collaborators, for running the client on examples:
    cells hold strings; a body decodes when it opens with a brace; the
    error envelope is read from [code|message]. *)
Definition sample_decode (data : string) (result : value string)
    (h : gmap nat string) : gmap nat string * option error :=
  if String.prefix "{" data then
    match result with
    | Ptr _ (Some a) => (<[ a := data ]> h, None)
    | _ => (h, None)
    end
  else (h, Some "invalid character looking for beginning of value").

Definition sample_decode_error (data : string) : ErrorInfo * option error :=
  if String.eqb data "{code:-1021,msg:clock}" then
    (mkErrorInfo (-1021) "Timestamp for this request is outside of the recvWindow.", None)
  else if String.prefix "{" data then (mkErrorInfo 0 "", None)
  else (mkErrorInfo 0 "", Some "invalid character looking for beginning of value").

#[global] Instance sample_externals : Externals string := {|
  AssignableTo := String.eqb;
  JSONDecode := sample_decode;
  JSONDecodeErrorInfo := sample_decode_error;
  HashSHA256 := 1;
  GetHMAC := fun _ input key => app key (take 2 input);
  WarningAuthenticatedRequestWithoutCredentialsSet :=
    "WARNING -- Exchange %s authenticated HTTP request called but not supported due to unset/default API keys.";
  MarketData_zero := "{}"
|}.

Definition sample_client (auth : bool) : Binance :=
  {| Name := "Binance"; Verbose := false; AuthenticatedAPISupport := auth;
     APIKey := "key"; APISecret := "secret"; rateLimits := ∅ |}.

(** A surrounding whose transport answers every request with one response. *)
Definition sample_env (unix : Z) (resp : string) (status : Z) (err : option error) : Env :=
  {| now_Unix := unix; now_UnixNano := unix * 1000000000;
     SendHTTPRequest2 := fun _ => (resp, status, err) |}.

(** A client whose account endpoint has used up a budget of 3 in the
    window opened at 1000. *)
Definition exhausted_client : Binance :=
  {| Name := "Binance"; Verbose := false; AuthenticatedAPISupport := true;
     APIKey := "key"; APISecret := "secret";
     rateLimits := {[ "GET" +:+ binanceAccountPath := mkRateLimitInfo 1000 3 ]} |}.

Definition sample_world : World string := {| heap := {[ 0%nat := "old" ]}; sent := [] |}.

(** A call at clock [t] whose result points to cell 0. *)
Definition sample_call (t : Z) : Call :=
  mkCall (sample_env t "{ok}" 200 None) ∅
    (Ptr "AccountInfo" (Some 0%nat)) (Val "AccountInfo" "default").

(** A limit order for validation only. *)
Definition sample_order : PostOrderParams :=
  {| Symbol := "BTCUSDT"; Side := "BUY"; Type' := "LIMIT"; TimeInForce := "GTC";
     Quantity := 1; Price := 100; NewClientOrderID := ""; StopPrice := 0;
     IcebergQty := 0; ValidateOnly := true |}.

End binance_spec.

(** ** Concurrent calls of [SendRateLimitedHTTPRequest]

    The accounting of lines 253-265, statement by statement, on the memory
    that concurrent calls share: the map [rateLimits] from keys to pointers
    and the records the pointers refer to.  No statement of it takes or
    waits for a lock, so every step is enabled in every state. *)

Module race.
Import binance binance_spec.

#[local] Open Scope Z_scope.

Record Shared := mkShared {
  table : gmap string nat;
  cells : gmap nat rateLimitInfo
}.

(** Where a call stands; [p] is its local pointer [rateLimit]. *)
Inductive pc :=
| AtLookup                     (* line 253 *)
| AtNilCheck (p : option nat)  (* lines 254-257 *)
| AtWindowTest (p : nat)       (* lines 259-260 *)
| AtResetCount (p : nat)       (* line 261 *)
| AtResetStart (p : nat)       (* line 262 *)
| AtBudgetTest (p : nat)       (* line 264 *)
| AtIncrement (p : nat)        (* line 265 *)
| ToNetwork                    (* line 284 *)
| ToDefault.                   (* lines 267-281 *)

(** A call: its key [method+path], its budget, the clock it reads at line
    259, and where it stands. *)
Record Thread := mkThread {
  t_key : string;
  t_budget : Z;
  t_clock : Z;
  t_pc : pc
}.

Definition at_pc (th : Thread) (l : pc) : Thread :=
  {| t_key := t_key th; t_budget := t_budget th; t_clock := t_clock th; t_pc := l |}.

Definition cell (s : Shared) (p : nat) : rateLimitInfo :=
  default (mkRateLimitInfo 0 0) (cells s !! p).

Definition write (s : Shared) (p : nat) (rl : rateLimitInfo) : Shared :=
  {| table := table s; cells := <[ p := rl ]> (cells s) |}.

(** One statement of one call. *)
Definition step (th : Thread) (s : Shared) : Thread * Shared :=
  match t_pc th with
  | AtLookup => (at_pc th (AtNilCheck (table s !! t_key th)), s)
  | AtNilCheck None =>
      let p := fresh (dom (cells s)) in
      (at_pc th (AtWindowTest p),
       {| table := <[ t_key th := p ]> (table s);
          cells := <[ p := mkRateLimitInfo 0 0 ]> (cells s) |})
  | AtNilCheck (Some p) => (at_pc th (AtWindowTest p), s)
  | AtWindowTest p =>
      if (StartTime (cell s p) =? 0) ||
         (wrap_int64 (t_clock th - StartTime (cell s p)) >? 90)
      then (at_pc th (AtResetCount p), s)
      else (at_pc th (AtBudgetTest p), s)
  | AtResetCount p =>
      (at_pc th (AtResetStart p),
       write s p (mkRateLimitInfo (StartTime (cell s p)) 0))
  | AtResetStart p =>
      (at_pc th (AtBudgetTest p),
       write s p (mkRateLimitInfo (t_clock th) (RequestCount (cell s p))))
  | AtBudgetTest p =>
      if RequestCount (cell s p) <? t_budget th
      then (at_pc th (AtIncrement p), s)
      else (at_pc th ToDefault, s)
  | AtIncrement p =>
      (at_pc th ToNetwork,
       write s p (mkRateLimitInfo (StartTime (cell s p))
                    (wrap_uint (RequestCount (cell s p) + 1))))
  | ToNetwork => (th, s)
  | ToDefault => (th, s)
  end.

(** Two calls under a schedule: [true] steps the first, [false] the second. *)
Fixpoint exec (schedule : list bool) (a b : Thread) (s : Shared)
    : Thread * Thread * Shared :=
  match schedule with
  | [] => (a, b, s)
  | true :: rest => let '(a', s') := step a s in exec rest a' b s'
  | false :: rest => let '(b', s') := step b s in exec rest a b' s'
  end.

(** One call on its own, from its first statement to its last. *)
Fixpoint steps (k : nat) (th : Thread) (s : Shared) : Thread * Shared :=
  match k with
  | O => (th, s)
  | S k' => let '(th', s') := step th s in steps k' th' s'
  end.

Definition solo (th : Thread) (s : Shared) : Thread * Shared := steps 7 th s.

(** The serial schedule: the first call to its end, then the second. *)
Definition serial : list bool := replicate 7 true ++ replicate 7 false.

(** The map [rateLimits] as the sequential model has it: each key with the
    record its pointer refers to. *)
Definition view (s : Shared) : gmap string rateLimitInfo :=
  omap (fun p => cells s !! p) (table s).

(** Pointers of the map refer to records, and no two keys share one. *)
Definition wf (s : Shared) : Prop :=
  (forall k p, table s !! k = Some p -> is_Some (cells s !! p)) /\
  (forall k1 k2 p, table s !! k1 = Some p -> table s !! k2 = Some p -> k1 = k2).

Definition start (key : string) (n t : Z) : Thread :=
  {| t_key := key; t_budget := n; t_clock := t; t_pc := AtLookup |}.

(** The record a call leaves under its key, by the sequential reading of
    lines 253-265. *)
Definition accounted (n t : Z) (rl : rateLimitInfo) : rateLimitInfo :=
  let rl1 :=
    if (StartTime rl =? 0) || (wrap_int64 (t - StartTime rl) >? 90)
    then mkRateLimitInfo t 0 else rl in
  if RequestCount rl1 <? n
  then mkRateLimitInfo (StartTime rl1) (wrap_uint (RequestCount rl1 + 1))
  else rl1.

Definition admitted (n t : Z) (rl : rateLimitInfo) : bool :=
  let rl1 :=
    if (StartTime rl =? 0) || (wrap_int64 (t - StartTime rl) >? 90)
    then mkRateLimitInfo t 0 else rl in
  RequestCount rl1 <? n.

(** A schedule in which the second call runs between the budget test and
    the increment of the first. *)
Definition racy : list bool :=
  [true; true; true; true; true; true;
   false; false; false; false; false;
   true].

(** The statement at which a call of the step model ended and the way the
    sequential function went agree. *)
Definition agrees {Data : Type} `{!Externals Data} (l : pc)
    (r : outcome * Binance * World Data) (env : Env) (method path : string)
    (c : Call) (w : World Data) : Prop :=
  match l with
  | ToNetwork =>
      r = network_path (snd (fst r)) env method path (c_params c) (c_result c) w
  | ToDefault => r = default_path (snd (fst r)) (c_result c) (c_default c) w
  | _ => False
  end.

End race.
(** ** Facts about the pair codec *)

Module pair_facts.
Import pair.

Lemma lower_byte_idem (c : ascii) : lower_byte (lower_byte c) = lower_byte c.
Proof. destruct c as [[] [] [] [] [] [] [] []]; reflexivity. Qed.

Lemma Lower_idem (c : string) : Lower (Lower c) = Lower c.
Proof.
  unfold Lower. induction c as [|a c IH]; simpl; [reflexivity|].
  rewrite lower_byte_idem, IH. reflexivity.
Qed.

Lemma variant_refl p : variant p p.
Proof. split; reflexivity. Qed.

Lemma variant_sym p q : variant p q -> variant q p.
Proof. intros [H1 H2]. split; congruence. Qed.

Lemma variant_FormatPair d p q :
  variant p q <-> FormatPair d false p = FormatPair d false q.
Proof.
  unfold variant, FormatPair. split.
  - intros [-> ->]. reflexivity.
  - intros H. injection H. auto.
Qed.

End pair_facts.

(** ** The store as a three-level lookup *)

Module orderbook_facts.
Import pair orderbook pair_facts.

Lemma variant_keys p q :
  variant p q <-> base_key p = base_key q /\ quote_key p = quote_key q.
Proof. reflexivity. Qed.

Lemma base_key_fp p : base_key (formatCurrencyPair p) = base_key p.
Proof. unfold base_key, formatCurrencyPair. simpl. apply Lower_idem. Qed.

Lemma quote_key_fp p : quote_key (formatCurrencyPair p) = quote_key p.
Proof. unfold quote_key, formatCurrencyPair. simpl. apply Lower_idem. Qed.

Lemma FirstCurrencyExists_fp o p :
  FirstCurrencyExists o (GetFirstCurrency (formatCurrencyPair p)) =
  bool_decide (is_Some (orderbooks o !! base_key p)).
Proof.
  unfold FirstCurrencyExists, formatCurrency, formatCurrencyPair, base_key. simpl.
  rewrite Lower_idem. destruct (orderbooks o !! Lower (FirstCurrency p)) eqn:E.
  - symmetry. apply bool_decide_eq_true. eauto.
  - symmetry. apply bool_decide_eq_false. intros [? ?]. discriminate.
Qed.

Lemma SecondCurrencyExists_fp o p :
  SecondCurrencyExists o (formatCurrencyPair p) =
  match orderbooks o !! base_key p with
  | Some m => bool_decide (is_Some (m !! quote_key p))
  | None => false
  end.
Proof.
  unfold SecondCurrencyExists, formatCurrencyPair, base_key, quote_key. simpl.
  rewrite !Lower_idem. destruct (orderbooks o !! Lower (FirstCurrency p)) as [m|]; [|reflexivity].
  destruct (m !! Lower (SecondCurrency p)) eqn:E.
  - symmetry. apply bool_decide_eq_true. eauto.
  - symmetry. apply bool_decide_eq_false. intros [? ?]. discriminate.
Qed.

(** [GetOrderbook] read off the nested maps. *)
Lemma GetOrderbook_cases e o p t :
  GetOrderbook e o p t =
  match orderbooks o !! base_key p with
  | None => (Base_zero, Some ErrPrimaryCurrencyNotFound)
  | Some m1 =>
      match m1 !! quote_key p with
      | None =>
          (Base_zero,
           Some (ErrSecondaryCurrencyNotFound +:+ "-" +:+ base_key p +:+ "-" +:+ quote_key p))
      | Some m2 => (default Base_zero (m2 !! t), None)
      end
  end.
Proof.
  unfold GetOrderbook. rewrite FirstCurrencyExists_fp.
  rewrite SecondCurrencyExists_fp.
  change (GetFirstCurrency (formatCurrencyPair p)) with (base_key p).
  change (GetSecondCurrency (formatCurrencyPair p)) with (quote_key p).
  destruct (orderbooks o !! base_key p) as [m1|] eqn:E1; simpl; [|reflexivity].
  destruct (m1 !! quote_key p) as [m2|] eqn:E2; simpl; [|reflexivity].
  rewrite (lookup_total_correct _ _ _ E1), (lookup_total_correct _ _ _ E2).
  reflexivity.
Qed.

(** [ProcessOrderbook] never panics, and is a three-level insert. *)
Lemma ProcessOrderbook_insert3 e o p x t now :
  ProcessOrderbook e o p x t now =
  Some (insert3 o (base_key p) (quote_key p) t
          {| Pair := orderbook.Pair x;
             CurrencyPair := base_key p +:+ "/" +:+ quote_key p;
             Bids := Bids x; Asks := Asks x; LastUpdated := now |}).
Proof.
  unfold ProcessOrderbook. rewrite FirstCurrencyExists_fp.
  rewrite SecondCurrencyExists_fp.
  change (pair.Pair (formatCurrencyPair p)) with (base_key p +:+ "/" +:+ quote_key p).
  change (FirstCurrency (formatCurrencyPair p)) with (base_key p).
  change (SecondCurrency (formatCurrencyPair p)) with (quote_key p).
  unfold insert3.
  destruct (orderbooks o !! base_key p) as [m1|] eqn:E1; simpl; [|reflexivity].
  destruct (m1 !! quote_key p) as [m2|] eqn:E2; simpl; reflexivity.
Qed.

Lemma lookup3_insert3_eq o b q t x : lookup3 (insert3 o b q t x) b q t = Some x.
Proof.
  unfold lookup3, insert3. simpl. rewrite lookup_insert_eq. simpl.
  rewrite lookup_insert_eq. simpl. apply lookup_insert_eq.
Qed.

Lemma lookup3_insert3_ne o b q t x b' q' t' :
  ~ (b = b' /\ q = q' /\ t = t') ->
  lookup3 (insert3 o b q t x) b' q' t' = lookup3 o b' q' t'.
Proof.
  intros Hne. unfold lookup3, insert3. simpl.
  destruct (decide (b = b')) as [<-|Hb]; [|rewrite lookup_insert_ne by done; reflexivity].
  rewrite lookup_insert_eq. simpl.
  destruct (decide (q = q')) as [<-|Hq].
  - rewrite lookup_insert_eq. simpl.
    rewrite lookup_insert_ne by (intros <-; apply Hne; auto).
    destruct (orderbooks o !! b) as [m1|]; simpl; [|apply lookup_empty].
    destruct (m1 !! q) as [m2|]; simpl; [reflexivity|apply lookup_empty].
  - rewrite lookup_insert_ne by done.
    destruct (orderbooks o !! b) as [m1|]; simpl; [reflexivity|].
    rewrite lookup_empty. reflexivity.
Qed.

(** A snapshot that [lookup3] finds is what [GetOrderbook] returns. *)
Lemma GetOrderbook_lookup3 e o p t x :
  lookup3 o (base_key p) (quote_key p) t = Some x ->
  GetOrderbook e o p t = (x, None).
Proof.
  rewrite GetOrderbook_cases. unfold lookup3.
  destruct (orderbooks o !! base_key p) as [m1|]; simpl; [|discriminate].
  destruct (m1 !! quote_key p) as [m2|]; simpl; [|discriminate].
  intros ->. reflexivity.
Qed.

Lemma apply_upsert_insert3 o u :
  apply_upsert o u =
  Some (insert3 o (base_key (u_pair u)) (quote_key (u_pair u)) (u_type u) (stored u)).
Proof. unfold apply_upsert. rewrite ProcessOrderbook_insert3. reflexivity. Qed.

Lemma addresses_false_keys p t u :
  addresses p t u = false ->
  ~ (base_key (u_pair u) = base_key p /\ quote_key (u_pair u) = quote_key p /\ u_type u = t).
Proof.
  unfold addresses. intros H%bool_decide_eq_false [Hb [Hq Ht]].
  apply H. split; [split; assumption | assumption].
Qed.

Lemma addresses_true_keys p t u :
  addresses p t u = true ->
  base_key (u_pair u) = base_key p /\ quote_key (u_pair u) = quote_key p /\ u_type u = t.
Proof.
  unfold addresses. intros [[Hb Hq] Ht]%bool_decide_eq_true. auto.
Qed.

(** A sequence of upserts always runs to completion. *)
Lemma run_total us : forall o, is_Some (run us o).
Proof.
  induction us as [|u us IH]; intros o; simpl; [eauto|].
  rewrite apply_upsert_insert3. simpl. apply IH.
Qed.

(** Upserts that do not address a triple leave its snapshot alone. *)
Lemma run_frame us p t :
  last_upsert us p t = None ->
  forall o o', run us o = Some o' ->
  lookup3 o' (base_key p) (quote_key p) t = lookup3 o (base_key p) (quote_key p) t.
Proof.
  induction us as [|u us IH]; simpl; intros Hlast o o' Hrun.
  - congruence.
  - destruct (last_upsert us p t) eqn:El; [discriminate|].
    destruct (addresses p t u) eqn:Ea; [discriminate|].
    rewrite apply_upsert_insert3 in Hrun. simpl in Hrun.
    rewrite (IH eq_refl _ _ Hrun).
    apply lookup3_insert3_ne, addresses_false_keys, Ea.
Qed.

Lemma run_last us p t u :
  last_upsert us p t = Some u ->
  forall o o', run us o = Some o' ->
  lookup3 o' (base_key p) (quote_key p) t = Some (stored u).
Proof.
  induction us as [|u0 us IH]; simpl; intros Hlast o o' Hrun; [discriminate|].
  rewrite apply_upsert_insert3 in Hrun. simpl in Hrun.
  destruct (last_upsert us p t) as [u'|] eqn:El.
  - injection Hlast as ->. eapply IH; eauto.
  - destruct (addresses p t u0) eqn:Ea; [|discriminate].
    injection Hlast as ->.
    rewrite (run_frame us p t El _ _ Hrun).
    apply addresses_true_keys in Ea as (<- & <- & <-).
    apply lookup3_insert3_eq.
Qed.

End orderbook_facts.

(** ** Which keys a sequence of upserts creates *)

Module orderbook_history.
Import pair orderbook pair_facts orderbook_facts.

Lemma has_base_insert3 o b q t x b' :
  has_base (insert3 o b q t x) b' <-> b = b' \/ has_base o b'.
Proof.
  unfold has_base, insert3. simpl. destruct (decide (b = b')) as [<-|Hne].
  - rewrite lookup_insert_eq. split; eauto.
  - rewrite lookup_insert_ne by done. split; [auto|]. intros [?|?]; [done|auto].
Qed.

Lemma has_pair_insert3 o b q t x b' q' :
  has_pair (insert3 o b q t x) b' q' <-> (b = b' /\ q = q') \/ has_pair o b' q'.
Proof.
  unfold has_pair, insert3. simpl. destruct (decide (b = b')) as [<-|Hne].
  - rewrite lookup_insert_eq. destruct (decide (q = q')) as [<-|Hq].
    + split; [auto|]. intros _. eexists. split; [reflexivity|].
      rewrite lookup_insert_eq. eauto.
    + split.
      * intros (m1 & [= <-] & Hs). rewrite lookup_insert_ne in Hs by done.
        right. destruct (orderbooks o !! b) as [m|]; simpl in *.
        -- eauto.
        -- rewrite lookup_empty in Hs. destruct Hs; discriminate.
      * intros [[_ ?]|(m1 & E & Hs)]; [done|].
        eexists. split; [reflexivity|]. rewrite lookup_insert_ne by done.
        rewrite E. simpl. exact Hs.
  - rewrite lookup_insert_ne by done. split; [auto|]. intros [[? _]|?]; [done|auto].
Qed.

Lemma run_has_base us b : forall o o',
  run us o = Some o' ->
  has_base o' b <-> has_base o b \/ Exists (fun u => base_key (u_pair u) = b) us.
Proof.
  induction us as [|u us IH]; simpl; intros o o' Hrun.
  - injection Hrun as <-. rewrite Exists_nil. tauto.
  - rewrite apply_upsert_insert3 in Hrun. simpl in Hrun.
    rewrite (IH _ _ Hrun), has_base_insert3, Exists_cons. tauto.
Qed.

Lemma run_has_pair us b q : forall o o',
  run us o = Some o' ->
  has_pair o' b q <->
  has_pair o b q \/
  Exists (fun u => base_key (u_pair u) = b /\ quote_key (u_pair u) = q) us.
Proof.
  induction us as [|u us IH]; simpl; intros o o' Hrun.
  - injection Hrun as <-. rewrite Exists_nil. tauto.
  - rewrite apply_upsert_insert3 in Hrun. simpl in Hrun.
    rewrite (IH _ _ Hrun), has_pair_insert3, Exists_cons. tauto.
Qed.

Lemma Init_no_base b : ~ has_base Init b.
Proof. unfold has_base, Init. simpl. rewrite lookup_empty. intros [? ?]. discriminate. Qed.

Lemma Init_no_pair b q : ~ has_pair Init b q.
Proof. intros (m1 & E & _). unfold Init in E. simpl in E. rewrite lookup_empty in E. discriminate. Qed.

Lemma error_messages_differ b q :
  ErrPrimaryCurrencyNotFound <>
  ErrSecondaryCurrencyNotFound +:+ "-" +:+ b +:+ "-" +:+ q.
Proof. discriminate. Qed.

(** [GetOrderbook] by the keys present in the store. *)
Lemma GetOrderbook_by_keys e o p t :
  (GetOrderbook e o p t = (Base_zero, Some ErrPrimaryCurrencyNotFound) <->
     ~ has_base o (base_key p)) /\
  (GetOrderbook e o p t =
     (Base_zero,
      Some (ErrSecondaryCurrencyNotFound +:+ "-" +:+ base_key p +:+ "-" +:+ quote_key p)) <->
     has_base o (base_key p) /\ ~ has_pair o (base_key p) (quote_key p)) /\
  (snd (GetOrderbook e o p t) = None <-> has_pair o (base_key p) (quote_key p)) /\
  (has_pair o (base_key p) (quote_key p) ->
     lookup3 o (base_key p) (quote_key p) t = None ->
     GetOrderbook e o p t = (Base_zero, None)).
Proof.
  rewrite GetOrderbook_cases. unfold has_base, has_pair, lookup3.
  destruct (orderbooks o !! base_key p) as [m1|] eqn:E1.
  - destruct (m1 !! quote_key p) as [m2|] eqn:E2.
    + assert (Hp : exists m, Some m1 = Some m /\ is_Some (m !! quote_key p)).
      { exists m1. rewrite E2. eauto. }
      split; [|split; [|split]].
      * split; [intros [=] | intros H; exfalso; apply H; eauto].
      * split; [intros [=] | intros [_ H]; exfalso; apply H, Hp].
      * split; [intros _; exact Hp | reflexivity].
      * intros _ Hnone. simpl in Hnone. rewrite E2 in Hnone. simpl in Hnone.
        rewrite Hnone. reflexivity.
    + assert (Hp : ~ exists m, Some m1 = Some m /\ is_Some (m !! quote_key p)).
      { intros (m & [= <-] & [x Hx]). rewrite E2 in Hx. discriminate. }
      split; [|split; [|split]].
      * split; [| intros H; exfalso; apply H; eauto].
        intros H. discriminate H.
      * split; [intros _; split; [eauto | exact Hp] | reflexivity].
      * split; [intros [=] | intros H; exfalso; exact (Hp H)].
      * intros H. exfalso. exact (Hp H).
  - assert (Hp : ~ exists m : gmap string (gmap string Base),
                     None = Some m /\ is_Some (m !! quote_key p)).
    { intros (m & [=] & _). }
    assert (Hn : ~ is_Some (@None (gmap string (gmap string Base)))).
    { intros [? [=]]. }
    split; [|split; [|split]].
    + split; [intros _; exact Hn | reflexivity].
    + split; [| intros [H _]; exfalso; exact (Hn H)].
      intros H. discriminate H.
    + split; [intros [=] | intros H; exfalso; exact (Hp H)].
    + intros H. exfalso. exact (Hp H).
Qed.

End orderbook_history.

(** ** Properties of the order-book store *)

Module orderbook_props.
Import pair orderbook pair_facts orderbook_facts orderbook_history.

(** C1.  After any sequence of [ProcessOrderbook] calls, on any store,
    [GetOrderbook] for a pair and book type returns, without error, the
    snapshot stored by the most recent call whose pair is a case or
    delimiter variant of the queried pair and whose book type is the queried
    one; the exchange names play no part. *)
Theorem get_returns_last_upsert (us : list upsert) (o : Orderbooks)
    (e : string) (p : pair.CurrencyPair) (t : string) (u : upsert) :
  last_upsert us p t = Some u ->
  exists o', run us o = Some o' /\ GetOrderbook e o' p t = (stored u, None).
Proof.
  intros Hlast. destruct (run_total us o) as [o' Hrun].
  exists o'. split; [exact Hrun|].
  apply GetOrderbook_lookup3. eapply run_last; eassumption.
Qed.

Lemma get_returns_last_upsert_witness :
  exists o', run sample_upserts Init = Some o' /\
    GetOrderbook "any" o' (mkCurrencyPair "" "Btc" "uSD") "SPOT" =
      ({| orderbook.Pair := mkCurrencyPair "-" "BTC" "USD";
          CurrencyPair := "btc/usd";
          Bids := [mkItem 1 101];
          Asks := [mkItem 2 102];
          LastUpdated := 3000 |}, None).
Proof.
  apply (get_returns_last_upsert sample_upserts Init "any"
           (mkCurrencyPair "" "Btc" "uSD") "SPOT"
           (mkUpsert "kraken" (mkCurrencyPair "/" "btc" "usd") (sample_book 101 9) Spot 3000)).
  vm_compute. reflexivity.
Defined.

(** C4.  On every store: the lookup fails with the primary-currency
    error exactly when the canonical base is not a key of the store; it
    fails with the secondary-currency error, whose message ends in the
    canonical base and quote, exactly when the base is a key and the quote
    is not a key under it; it returns no error exactly when both are, and
    then the empty snapshot if the book type is not a key under them.  On a
    store built by upserts from [Init], the base is a key exactly when some
    upsert had it, the pair exactly when some upsert had a variant of it,
    and the book type exactly when some upsert had the triple. *)
Theorem GetOrderbook_miss_cases (o : Orderbooks) (e : string)
    (p : pair.CurrencyPair) (t : string) :
  (GetOrderbook e o p t = (Base_zero, Some ErrPrimaryCurrencyNotFound) <->
     ~ has_base o (base_key p)) /\
  (GetOrderbook e o p t =
     (Base_zero,
      Some (ErrSecondaryCurrencyNotFound +:+ "-" +:+ base_key p +:+ "-" +:+ quote_key p)) <->
     has_base o (base_key p) /\ ~ has_pair o (base_key p) (quote_key p)) /\
  (snd (GetOrderbook e o p t) = None <-> has_pair o (base_key p) (quote_key p)) /\
  (has_pair o (base_key p) (quote_key p) ->
     lookup3 o (base_key p) (quote_key p) t = None ->
     GetOrderbook e o p t = (Base_zero, None)) /\
  (forall us : list upsert,
     run us Init = Some o ->
     (has_base o (base_key p) <->
        Exists (fun u => base_key (u_pair u) = base_key p) us) /\
     (has_pair o (base_key p) (quote_key p) <->
        Exists (fun u => pair.variant (u_pair u) p) us) /\
     (lookup3 o (base_key p) (quote_key p) t = None <-> last_upsert us p t = None)).
Proof.
  destruct (GetOrderbook_by_keys e o p t) as (H1 & H2 & H3 & H4).
  split; [exact H1|]. split; [exact H2|]. split; [exact H3|]. split; [exact H4|].
  intros us Hrun.
  pose proof (run_has_base us (base_key p) _ _ Hrun) as Hb.
  pose proof (run_has_pair us (base_key p) (quote_key p) _ _ Hrun) as Hq.
  pose proof (Init_no_base (base_key p)) as Hib.
  pose proof (Init_no_pair (base_key p) (quote_key p)) as Hiq.
  split; [tauto|]. split.
  - rewrite Hq. unfold pair.variant, base_key, quote_key. tauto.
  - split.
    + intros Hnone. destruct (last_upsert us p t) as [u|] eqn:Hlast; [|reflexivity].
      rewrite (run_last us p t u Hlast _ _ Hrun) in Hnone. discriminate.
    + intros Hlast. rewrite (run_frame us p t Hlast _ _ Hrun).
      unfold lookup3, Init. simpl. rewrite lookup_empty. reflexivity.
Qed.

Lemma GetOrderbook_miss_cases_witness :
  exists o, run sample_upserts Init = Some o /\
    GetOrderbook "x" o (mkCurrencyPair "-" "LTC" "USD") "SPOT" =
      (Base_zero, Some "Error primary currency for orderbook not found.") /\
    GetOrderbook "x" o (mkCurrencyPair "-" "BTC" "EUR") "SPOT" =
      (Base_zero, Some "Error secondary currency for orderbook not found.-btc-eur") /\
    GetOrderbook "x" o (mkCurrencyPair "-" "BTC" "USD") "MARGIN" = (Base_zero, None).
Proof.
  destruct (run sample_upserts Init) as [o|] eqn:Hrun; [|vm_compute in Hrun; discriminate].
  exists o. split; [reflexivity|].
  split; [|split].
  - destruct (GetOrderbook_miss_cases o "x" (mkCurrencyPair "-" "LTC" "USD") "SPOT")
      as (H1 & _ & _ & _ & Hh).
    destruct (Hh _ Hrun) as (Hb & _ & _).
    apply H1. rewrite Hb. apply Forall_Exists_neg.
    repeat constructor; vm_compute; discriminate.
  - destruct (GetOrderbook_miss_cases o "x" (mkCurrencyPair "-" "BTC" "EUR") "SPOT")
      as (_ & H2 & _ & _ & Hh).
    destruct (Hh _ Hrun) as (Hb & Hq & _).
    apply H2. rewrite Hb, Hq. split.
    + apply Exists_cons_hd. reflexivity.
    + apply Forall_Exists_neg.
      repeat constructor; vm_compute; intros [? ?]; discriminate.
  - destruct (GetOrderbook_miss_cases o "x" (mkCurrencyPair "-" "BTC" "USD") "MARGIN")
      as (_ & _ & _ & H4 & Hh).
    destruct (Hh _ Hrun) as (_ & Hq & Ht).
    apply H4.
    + apply Hq. apply Exists_cons_hd. vm_compute. split; reflexivity.
    + apply Ht. vm_compute. reflexivity.
Defined.

(** C10.  The exchange-name argument of [GetOrderbook] and of
    [ProcessOrderbook] has no influence: any two names give the same result
    and the same store. *)
Theorem exchange_name_ignored (e1 e2 : string) (o : Orderbooks)
    (p : pair.CurrencyPair) (t : string) (x : Base) (now : Z) :
  GetOrderbook e1 o p t = GetOrderbook e2 o p t /\
  ProcessOrderbook e1 o p x t now = ProcessOrderbook e2 o p x t now.
Proof. split; reflexivity. Qed.

End orderbook_props.

(** ** Facts about the request pipeline *)

Module binance_facts.
Import binance binance_spec.

#[local] Open Scope Z_scope.

Lemma Encode_empty : url.Encode ∅ = "".
Proof. vm_compute. reflexivity. Qed.

Lemma payload_of_params (params : gmap string (list string)) :
  (if (0 <? size params)%nat then url.Encode params else "") = url.Encode params.
Proof.
  destruct (0 <? size params)%nat eqn:E; [reflexivity|].
  apply Nat.ltb_ge in E.
  assert (params = ∅) as -> by (apply map_size_empty_inv; lia).
  symmetry. apply Encode_empty.
Qed.

Section Pipeline.
Context {Data : Type} `{!Externals Data}.

Lemma SendHTTPRequest_no_credentials b env method path params sign
    (result : value Data) (w : World Data) :
  AuthenticatedAPISupport b = false ->
  SendHTTPRequest b env method path params sign result w =
  ((0, Some (fmt.Sprintf WarningAuthenticatedRequestWithoutCredentialsSet [Name b])), w).
Proof. intros H. unfold SendHTTPRequest. rewrite H. reflexivity. Qed.

Lemma SendHTTPRequest_wire b env method path params sign
    (result : value Data) (w : World Data) :
  AuthenticatedAPISupport b = true ->
  SendHTTPRequest b env method path params sign result w =
  let req := wire_request b env method path params sign in
  let r := SendHTTPRequest2 env req in
  decoded (fst (fst r)) (snd (fst r)) (snd r) result
    {| heap := heap w; sent := sent w ++ [req] |}.
Proof.
  intros H. unfold SendHTTPRequest, decoded. rewrite H, payload_of_params.
  simpl negb. cbv iota zeta.
  unfold wire_request, signed_payload, signature, signed_text.
  change (1000 * 1000) with 1000000. change (fmt.decimal 5000) with "5000".
  destruct sign;
    [destruct (String.eqb (url.Encode params) "")|];
    simpl negb; cbv iota;
    destruct (String.eqb method "GET");
    destruct (SendHTTPRequest2 env _) as [[resp status] err]; reflexivity.
Qed.

Lemma sent_decoded resp status err (result : value Data) (w : World Data) :
  sent (snd (decoded resp status err result w)) = sent w.
Proof.
  unfold decoded. destruct err; [reflexivity|].
  destruct ((200 <=? status) && (status <=? 299)).
  - destruct (JSONDecode resp result (heap w)) as [h [e|]]; reflexivity.
  - destruct (JSONDecodeErrorInfo resp) as [ei [e|]]; reflexivity.
Qed.

Lemma sent_SendHTTPRequest b env method path params sign
    (result : value Data) (w : World Data) :
  AuthenticatedAPISupport b = true ->
  sent (snd (SendHTTPRequest b env method path params sign result w)) =
  (sent w ++ [wire_request b env method path params sign])%list.
Proof.
  intros H. rewrite SendHTTPRequest_wire by exact H. cbv zeta.
  rewrite sent_decoded. reflexivity.
Qed.

End Pipeline.

Lemma Encode_symbol (s : string) :
  url.Encode (url.Values_Set ∅ "symbol" s) = "symbol=" +:+ url.QueryEscape s.
Proof. vm_compute. reflexivity. Qed.

Lemma Encode_symbol_limit (s l : string) :
  url.Encode (url.Values_Set (url.Values_Set ∅ "symbol" s) "limit" l) =
  "limit=" +:+ url.QueryEscape l +:+ "&symbol=" +:+ url.QueryEscape s.
Proof. vm_compute. reflexivity. Qed.

End binance_facts.

(** ** Properties of the request pipeline *)

Module binance_props.
Import binance binance_spec binance_facts.

#[local] Open Scope Z_scope.

(** C5.  The credentials check of [SendHTTPRequest] does not look at
    [sign]: without configured credentials every call, signed or not, ends
    with the missing-credentials error before any request is made, and so
    does the unauthenticated GET of [FetchMarketData]. *)
Theorem credentials_gate_ignores_sign {Data : Type} `{!Externals Data}
    (b : Binance) (env : Env) (method path : string) (params : url.Values)
    (result : value Data) (symbol : string) (limit : Z) (w : World Data) :
  AuthenticatedAPISupport b = false ->
  (forall sign,
     SendHTTPRequest b env method path params sign result w =
     ((0, Some (fmt.Sprintf WarningAuthenticatedRequestWithoutCredentialsSet [Name b])), w)) /\
  snd (fst (FetchMarketData b env symbol limit w)) =
    Some (fmt.Sprintf WarningAuthenticatedRequestWithoutCredentialsSet [Name b]) /\
  sent (snd (FetchMarketData b env symbol limit w)) = sent w.
Proof.
  intros H. split; [|split].
  - intros sign. apply SendHTTPRequest_no_credentials, H.
  - unfold FetchMarketData. rewrite SendHTTPRequest_no_credentials by exact H.
    reflexivity.
  - unfold FetchMarketData. rewrite SendHTTPRequest_no_credentials by exact H.
    reflexivity.
Qed.

Lemma credentials_gate_ignores_sign_witness :
  snd (fst (FetchMarketData (sample_client false)
              (sample_env 1700000000 "{bids}" 200 None) "BTCUSDT" (-1) sample_world)) =
    Some "WARNING -- Exchange Binance authenticated HTTP request called but not supported due to unset/default API keys." /\
  sent (snd (FetchMarketData (sample_client false)
               (sample_env 1700000000 "{bids}" 200 None) "BTCUSDT" (-1) sample_world)) = [].
Proof.
  exact (proj2 (credentials_gate_ignores_sign (sample_client false)
                  (sample_env 1700000000 "{bids}" 200 None) "GET" binanceDepthPath ∅ Nil
                  "BTCUSDT" (-1) sample_world eq_refl)).
Defined.

(** C6.  A signed call with credentials hands exactly one request to the
    transport.  Its payload is the encoded parameters followed by
    [timestamp] (the clock in milliseconds) and [recvWindow=5000], then
    [signature], the hexadecimal HMAC-SHA256 of what precedes under the
    secret: a function of parameters, time stamp and secret alone.  The
    payload is the query string of a GET and the body of any other method.
    The API key is the [X-MBX-APIKEY] header and appears nowhere else:
    another key changes that header and nothing more. *)
Theorem signed_request {Data : Type} `{!Externals Data}
    (b : Binance) (env : Env) (method path : string) (params : url.Values)
    (result : value Data) (w : World Data) :
  AuthenticatedAPISupport b = true ->
  exists req,
    sent (snd (SendHTTPRequest b env method path params true result w)) =
      (sent w ++ [req])%list /\
    (let stamp :=
       "timestamp=" +:+ fmt.decimal (now_UnixNano env ÷ 1000000) +:+ "&recvWindow=5000" in
     let text :=
       if String.eqb (url.Encode params) "" then stamp
       else url.Encode params +:+ "&" +:+ stamp in
     let payload :=
       text +:+ "&signature=" +:+
       hex.EncodeToString
         (GetHMAC HashSHA256 (list_byte_of_string text)
            (list_byte_of_string (APISecret b))) in
     payload = signed_payload (APISecret b) params (now_UnixNano env) /\
     if String.eqb method "GET"
     then req_url req = binanceBaseURL +:+ path +:+ "?" +:+ payload /\
          req_body req = None
     else req_url req = binanceBaseURL +:+ path /\ req_body req = Some payload) /\
    req_headers req !! "X-MBX-APIKEY" = Some [APIKey b] /\
    (forall k,
       exists req',
         sent (snd (SendHTTPRequest (with_APIKey b k) env method path params true
                      result w)) = (sent w ++ [req'])%list /\
         req_method req' = req_method req /\
         req_url req' = req_url req /\
         req_body req' = req_body req /\
         req_headers req' = <[ "X-MBX-APIKEY" := [k] ]> (req_headers req)).
Proof.
  intros H. exists (wire_request b env method path params true).
  split; [apply sent_SendHTTPRequest, H|].
  split; [|split].
  - cbv zeta. unfold wire_request, signed_payload, signature, signed_text.
    destruct (String.eqb (url.Encode params) ""); simpl;
      destruct (String.eqb method "GET"); simpl; auto.
  - unfold wire_request. destruct (String.eqb method "GET"); simpl.
    + apply lookup_insert_eq.
    + rewrite lookup_insert_ne by discriminate. apply lookup_insert_eq.
  - intros k. exists (wire_request (with_APIKey b k) env method path params true).
    split; [apply sent_SendHTTPRequest, H|].
    unfold wire_request. simpl.
    destruct (String.eqb method "GET"); simpl; repeat split.
Qed.

Lemma signed_request_witness :
  exists req,
    sent (snd (SendHTTPRequest (sample_client true)
                 (sample_env 5 "{ok}" 200 None) "POST" binanceOrderPath
                 (url.Values_Set ∅ "symbol" "BTCUSDT") true Nil sample_world)) = [req] /\
    req_url req = "https://www.binance.com/api/v3/order" /\
    req_body req =
      Some "symbol=BTCUSDT&timestamp=5000&recvWindow=5000&signature=7365637265747379" /\
    req_headers req !! "X-MBX-APIKEY" = Some ["key"].
Proof.
  destruct (signed_request (sample_client true) (sample_env 5 "{ok}" 200 None)
              "POST" binanceOrderPath (url.Values_Set ∅ "symbol" "BTCUSDT")
              Nil sample_world eq_refl) as (req & Hsent & Hpay & Hkey & _).
  exists req. split; [exact Hsent|].
  cbv zeta in Hpay. destruct Hpay as [_ [Hurl Hbody]].
  split; [exact Hurl|]. split; [|exact Hkey].
  rewrite Hbody. vm_compute. reflexivity.
Defined.

(** C7.  When the transport answers without error: a status in 200..299
    has the body decoded into the result, and a body that does not decode
    gives the error "failed to unmarshal response"; any other status has
    the body decoded as the error envelope, whose code and message are
    returned as they are, and an envelope that does not decode gives the
    error "failed to unmarshal error info", a fixed error of its own that
    is not the malformed-response one and owes nothing to the transport.
    An error of the transport is returned as it is. *)
Theorem response_decoding {Data : Type} `{!Externals Data}
    (b : Binance) (env : Env) (method path : string) (params : url.Values)
    (sign : bool) (result : value Data) (w : World Data)
    (resp : string) (status : Z) (err : option error) :
  AuthenticatedAPISupport b = true ->
  SendHTTPRequest2 env (wire_request b env method path params sign) = (resp, status, err) ->
  let r := SendHTTPRequest b env method path params sign result w in
  (forall e, err = Some e -> fst r = (0, Some e) /\ heap (snd r) = heap w) /\
  (err = None -> 200 <= status <= 299 ->
     heap (snd r) = fst (JSONDecode resp result (heap w)) /\
     (snd (JSONDecode resp result (heap w)) = None -> fst r = (0, None)) /\
     (snd (JSONDecode resp result (heap w)) <> None ->
        fst r = (status, Some "failed to unmarshal response"))) /\
  (err = None -> ~ 200 <= status <= 299 ->
     heap (snd r) = heap w /\
     (snd (JSONDecodeErrorInfo resp) = None ->
        fst r = (Code (fst (JSONDecodeErrorInfo resp)),
                 Some (Message (fst (JSONDecodeErrorInfo resp))))) /\
     (snd (JSONDecodeErrorInfo resp) <> None ->
        fst r = (0, Some "failed to unmarshal error info"))) /\
  "failed to unmarshal error info" <> "failed to unmarshal response".
Proof.
  intros H Hnet. cbv zeta. rewrite SendHTTPRequest_wire by exact H. cbv zeta.
  rewrite Hnet. simpl fst. simpl snd. unfold decoded.
  split; [|split; [|split]].
  - intros e ->. split; reflexivity.
  - intros -> Hst.
    assert ((200 <=? status) && (status <=? 299) = true) as ->.
    { apply andb_true_intro. split; apply Z.leb_le; lia. }
    destruct (JSONDecode resp result _) as [h [e|]]; simpl.
    + split; [reflexivity|]. split; [discriminate|reflexivity].
    + split; [reflexivity|]. split; [reflexivity|]. intros Hne. exfalso. apply Hne. reflexivity.
  - intros -> Hst.
    assert ((200 <=? status) && (status <=? 299) = false) as ->.
    { apply andb_false_iff.
      destruct (Z.leb_spec 200 status); [|left; reflexivity].
      destruct (Z.leb_spec status 299); [|right; reflexivity]. exfalso. apply Hst. lia. }
    destruct (JSONDecodeErrorInfo resp) as [ei [e|]]; simpl.
    + split; [reflexivity|]. split; [discriminate|reflexivity].
    + split; [reflexivity|]. split; [reflexivity|]. intros Hne. exfalso. apply Hne. reflexivity.
  - discriminate.
Qed.

Lemma response_decoding_witness :
  fst (SendHTTPRequest (sample_client true)
         (sample_env 5 "{code:-1021,msg:clock}" 418 None) "POST" binanceOrderPath
         (url.Values_Set ∅ "symbol" "BTCUSDT") true Nil sample_world) =
    (InvalidTimestampErrCode,
     Some "Timestamp for this request is outside of the recvWindow.") /\
  fst (SendHTTPRequest (sample_client true)
         (sample_env 5 "<html>" 500 None) "POST" binanceOrderPath
         (url.Values_Set ∅ "symbol" "BTCUSDT") true Nil sample_world) =
    (0, Some "failed to unmarshal error info").
Proof.
  split.
  - destruct (response_decoding (sample_client true)
                (sample_env 5 "{code:-1021,msg:clock}" 418 None) "POST" binanceOrderPath
                (url.Values_Set ∅ "symbol" "BTCUSDT") true Nil sample_world
                "{code:-1021,msg:clock}" 418 None eq_refl eq_refl)
      as (_ & _ & Hbad & _).
    destruct (Hbad eq_refl ltac:(lia)) as (_ & Hok & _).
    exact (Hok eq_refl).
  - destruct (response_decoding (sample_client true)
                (sample_env 5 "<html>" 500 None) "POST" binanceOrderPath
                (url.Values_Set ∅ "symbol" "BTCUSDT") true Nil sample_world
                "<html>" 500 None eq_refl eq_refl)
      as (_ & _ & Hbad & _).
    destruct (Hbad eq_refl ltac:(lia)) as (_ & _ & Hmal).
    apply Hmal. discriminate.
Defined.

(** C8.  With credentials configured, [FetchMarketData] with limit [-1]
    sends a GET whose query is the symbol alone, and with limit [0] a GET
    whose query is [limit=0] and the symbol; the two URLs differ. *)
Theorem depth_limit_forms {Data : Type} `{!Externals Data}
    (b : Binance) (env : Env) (symbol : string) (w : World Data) :
  AuthenticatedAPISupport b = true ->
  let accept : gmap string (list string) := {[ "Accept" := ["application/json"] ]} in
  let omitted :=
    binanceBaseURL +:+ binanceDepthPath +:+ "?symbol=" +:+ url.QueryEscape symbol in
  let zero :=
    binanceBaseURL +:+ binanceDepthPath +:+ "?limit=0&symbol=" +:+ url.QueryEscape symbol in
  sent (snd (FetchMarketData b env symbol (-1) w)) =
    (sent w ++ [mkRequest "GET" omitted accept None])%list /\
  sent (snd (FetchMarketData b env symbol 0 w)) =
    (sent w ++ [mkRequest "GET" zero accept None])%list /\
  omitted <> zero.
Proof.
  intros H. cbv zeta. split; [|split].
  - unfold FetchMarketData. simpl Z.gtb. cbv iota.
    rewrite (surjective_pairing (SendHTTPRequest _ _ _ _ _ _ _ _)).
    rewrite (surjective_pairing (fst (SendHTTPRequest _ _ _ _ _ _ _ _))).
    simpl snd. rewrite sent_SendHTTPRequest by exact H.
    unfold wire_request. rewrite Encode_symbol. reflexivity.
  - unfold FetchMarketData. simpl Z.gtb. cbv iota.
    rewrite (surjective_pairing (SendHTTPRequest _ _ _ _ _ _ _ _)).
    rewrite (surjective_pairing (fst (SendHTTPRequest _ _ _ _ _ _ _ _))).
    simpl snd. rewrite sent_SendHTTPRequest by exact H.
    unfold wire_request. change (fmt.decimal 0) with "0".
    rewrite Encode_symbol_limit. reflexivity.
  - discriminate.
Qed.

Lemma depth_limit_forms_witness :
  req_url <$> sent (snd (FetchMarketData (sample_client true)
                           (sample_env 5 "{bids}" 200 None) "BTCUSDT" (-1) sample_world)) =
    ["https://www.binance.com/api/v1/depth?symbol=BTCUSDT"] /\
  req_url <$> sent (snd (FetchMarketData (sample_client true)
                           (sample_env 5 "{bids}" 200 None) "BTCUSDT" 0 sample_world)) =
    ["https://www.binance.com/api/v1/depth?limit=0&symbol=BTCUSDT"].
Proof.
  destruct (depth_limit_forms (sample_client true) (sample_env 5 "{bids}" 200 None)
              "BTCUSDT" sample_world eq_refl) as (H1 & H0 & _).
  cbv zeta in H1, H0. rewrite H1, H0. split; reflexivity.
Defined.

End binance_props.

(** ** Facts about the rate limiter *)

Module ratelimit_facts.
Import binance binance_spec binance_facts.

#[local] Open Scope Z_scope.

Lemma wrap_int64_small z : - 2 ^ 63 <= z < 2 ^ 63 -> wrap_int64 z = z.
Proof. intros H. unfold wrap_int64. rewrite Z.mod_small by lia. lia. Qed.

Lemma wrap_uint_small z : 0 <= z < 2 ^ 64 -> wrap_uint z = z.
Proof. intros H. unfold wrap_uint. apply Z.mod_small. exact H. Qed.

Section Limiter.
Context {Data : Type} `{!Externals Data}.

(** The record that the first call to an endpoint creates is in order. *)
Lemma entry_ok_fresh n b method path :
  0 <= n -> rateLimits b !! (method +:+ path) = None ->
  entry_ok n (entry b method path).
Proof.
  intros Hn Hnone. unfold entry. rewrite Hnone. simpl.
  split; simpl; [lia|left; reflexivity].
Qed.

(** The test of line 260 is the test "more than 90 seconds have passed". *)
Lemma window_test n rl t :
  entry_ok n rl -> clock_ok t ->
  ((StartTime rl =? 0) || (wrap_int64 (t - StartTime rl) >? 90)) =
  (90 <? t - StartTime rl).
Proof.
  intros [_ HS] Ht. unfold clock_ok in *. destruct HS as [->|HS].
  - simpl. rewrite Z.sub_0_r. symmetry. apply Z.ltb_lt. lia.
  - assert ((StartTime rl =? 0) = false) as -> by (apply Z.eqb_neq; lia).
    rewrite wrap_int64_small by lia. simpl. apply Z.gtb_ltb.
Qed.

Lemma entry_counted b env method path c :
  entry (counted b env method path c) method path =
  mkRateLimitInfo (window_start b env method path) c.
Proof. unfold entry, counted. simpl. rewrite lookup_insert_eq. reflexivity. Qed.

Lemma window_count_range n b env method path :
  entry_ok n (entry b method path) -> 0 <= window_count b env method path <= n.
Proof.
  intros [Hc _]. unfold window_count.
  destruct (90 <? elapsed b env method path); lia.
Qed.

Lemma window_start_ok n b env method path :
  entry_ok n (entry b method path) -> clock_ok (now_Unix env) ->
  window_start b env method path = 0 \/ clock_ok (window_start b env method path).
Proof.
  intros [_ HS] Ht. unfold window_start.
  destruct (90 <? elapsed b env method path); auto.
Qed.

(** One call: the accounting, then the network or the default value. *)
Lemma rate_limited_step n b env method path params (result dv : value Data)
    (w : World Data) :
  0 <= n < 2 ^ 64 ->
  entry_ok n (entry b method path) -> clock_ok (now_Unix env) ->
  SendRateLimitedHTTPRequest b env n method path params result dv w =
  if window_count b env method path <? n
  then network_path (counted b env method path (window_count b env method path + 1))
         env method path params result w
  else default_path (counted b env method path (window_count b env method path))
         result dv w.
Proof.
  intros Hn Hok Ht. unfold SendRateLimitedHTTPRequest.
  change (match rateLimits b !! (method +:+ path) with
          | Some rl => rl
          | None => mkRateLimitInfo 0 0
          end) with (entry b method path).
  rewrite (window_test n _ _ Hok Ht).
  pose proof (window_count_range n b env method path Hok) as Hc.
  unfold counted, window_count, window_start, elapsed in *.
  clear Hok. revert Hc. destruct (entry b method path) as [S c]. simpl. intros Hc.
  destruct (90 <? now_Unix env - S) eqn:E; simpl.
  - destruct (0 <? n) eqn:E0.
    + unfold network_path.
      destruct (SendHTTPRequest _ env method path params true result w) as [[c' e] w'].
      reflexivity.
    + unfold default_path.
      destruct (setResultToDefault result dv (heap w)) as [out h]. reflexivity.
  - destruct (c <? n) eqn:E0.
    + apply Z.ltb_lt in E0. rewrite wrap_uint_small by lia.
      unfold network_path.
      destruct (SendHTTPRequest _ env method path params true result w) as [[c' e] w'].
      reflexivity.
    + unfold default_path.
      destruct (setResultToDefault result dv (heap w)) as [out h]. reflexivity.
Qed.

(** The client that a call leaves behind. *)
Lemma rate_limited_client n b env method path params (result dv : value Data)
    (w : World Data) :
  0 <= n < 2 ^ 64 ->
  entry_ok n (entry b method path) -> clock_ok (now_Unix env) ->
  snd (fst (SendRateLimitedHTTPRequest b env n method path params result dv w)) =
  counted b env method path (Z.min n (window_count b env method path + 1)).
Proof.
  intros Hn Hok Ht. rewrite (rate_limited_step n) by assumption.
  pose proof (window_count_range n b env method path Hok) as Hc.
  destruct (window_count b env method path <? n) eqn:E.
  - apply Z.ltb_lt in E. rewrite Z.min_r by lia. reflexivity.
  - apply Z.ltb_ge in E.
    assert (Heq : window_count b env method path = n) by lia.
    unfold default_path. simpl. rewrite Heq, Z.min_l by lia. reflexivity.
Qed.

Lemma rate_limited_entry_ok n b env method path params (result dv : value Data)
    (w : World Data) :
  0 <= n < 2 ^ 64 ->
  entry_ok n (entry b method path) -> clock_ok (now_Unix env) ->
  entry_ok n
    (entry (snd (fst (SendRateLimitedHTTPRequest b env n method path params result dv w)))
       method path).
Proof.
  intros Hn Hok Ht. rewrite (rate_limited_client n) by assumption.
  rewrite entry_counted. split; simpl.
  - pose proof (window_count_range n b env method path Hok). lia.
  - apply (window_start_ok n); assumption.
Qed.

End Limiter.

End ratelimit_facts.

(** ** Properties of the rate limiter *)

Module ratelimit_props.
Import binance binance_spec binance_facts ratelimit_facts.

#[local] Open Scope Z_scope.

Section Exhausted.
Context {Data : Type} `{!Externals Data}.

Lemma rate_limited_exhausted n b env method path params (result dv : value Data)
    (w : World Data) :
  n <= count_found b env method path ->
  SendRateLimitedHTTPRequest b env n method path params result dv w =
  default_path
    (with_rateLimits b
       (<[ method +:+ path :=
             if window_over b env method path then mkRateLimitInfo (now_Unix env) 0
             else entry b method path ]> (rateLimits b)))
    result dv w.
Proof.
  intros Hn. unfold SendRateLimitedHTTPRequest, count_found, window_over in *.
  change (match rateLimits b !! (method +:+ path) with
          | Some rl => rl
          | None => mkRateLimitInfo 0 0
          end) with (entry b method path).
  destruct ((StartTime (entry b method path) =? 0) ||
            (wrap_int64 (now_Unix env - StartTime (entry b method path)) >? 90)); simpl.
  - assert ((0 <? n) = false) as -> by (apply Z.ltb_ge; exact Hn).
    unfold default_path.
    destruct (setResultToDefault result dv (heap w)) as [out h]. reflexivity.
  - assert ((RequestCount (entry b method path) <? n) = false) as ->
      by (apply Z.ltb_ge; exact Hn).
    unfold default_path.
    destruct (setResultToDefault result dv (heap w)) as [out h]. reflexivity.
Qed.

End Exhausted.

(** C2, as stated, at a call with a nil result: the window count 3 has
    reached the budget 3 and the call returns an error. *)
Lemma exhausted_call_with_nil_result_errors :
  count_found exhausted_client (sample_env 1010 "{ok}" 200 None) "GET" binanceAccountPath = 3 /\
  fst (fst (SendRateLimitedHTTPRequest exhausted_client
              (sample_env 1010 "{ok}" 200 None) 3 "GET" binanceAccountPath ∅
              Nil (Val "AccountInfo" "default") sample_world)) =
    Returned (Some "result must be a non-nil pointer") /\
  fst (fst (SendRateLimitedHTTPRequest exhausted_client
              (sample_env 1010 "{ok}" 200 None) 3 "GET" binanceAccountPath ∅
              Nil (Val "AccountInfo" "default") sample_world)) <> Returned None.
Proof.
  split; [vm_compute; reflexivity|].
  split; [vm_compute; reflexivity|].
  vm_compute. discriminate.
Qed.

(** C2, amended.  A call that finds the window count at or above the
    budget hands no request to the transport and leaves the count as it is.
    When the result is a non-nil pointer and the default value is a value,
    or a non-nil pointer to one, assignable to what the result points to,
    the call stores it there and returns no error.  When the result is not
    a non-nil pointer, or the default value is nil, the call returns an
    error and stores nothing. *)
Theorem exhausted_call_default {Data : Type} `{!Externals Data}
    (n : Z) (b : Binance) (env : Env) (method path : string) (params : url.Values)
    (result dv : value Data) (w : World Data) :
  n <= count_found b env method path ->
  let r := SendRateLimitedHTTPRequest b env n method path params result dv w in
  sent (snd r) = sent w /\
  RequestCount (entry (snd (fst r)) method path) = count_found b env method path /\
  (forall T a d,
     result = Ptr T (Some a) -> default_content T dv (heap w) = Some d ->
     fst (fst r) = Returned None /\ heap (snd r) = <[ a := d ]> (heap w)) /\
  ((forall T a, result <> Ptr T (Some a)) ->
     fst (fst r) = Returned (Some "result must be a non-nil pointer") /\
     heap (snd r) = heap w) /\
  (forall T a,
     result = Ptr T (Some a) -> dv = Nil ->
     fst (fst r) = Returned (Some "default value must be not be nil") /\
     heap (snd r) = heap w).
Proof.
  intros Hn. cbv zeta. rewrite rate_limited_exhausted by exact Hn.
  unfold default_path. simpl.
  split; [reflexivity|]. split.
  { unfold entry at 1. simpl. rewrite lookup_insert_eq. simpl.
    unfold count_found. destruct (window_over b env method path); reflexivity. }
  split; [|split].
  - intros T a d -> Hd. unfold default_content in Hd. simpl.
    destruct dv as [|T' d'|T' [a'|]]; try discriminate.
    + destruct (AssignableTo T' T); [|discriminate]. injection Hd as ->. auto.
    + destruct (AssignableTo T' T); [|discriminate]. rewrite Hd. auto.
  - intros Hr. destruct result as [|T d|T [a|]]; simpl; auto.
    exfalso. exact (Hr T a eq_refl).
  - intros T a -> ->. simpl. auto.
Qed.

Lemma exhausted_call_default_witness :
  fst (fst (SendRateLimitedHTTPRequest exhausted_client
              (sample_env 1010 "{ok}" 200 None) 3 "GET" binanceAccountPath ∅
              (Ptr "AccountInfo" (Some 0%nat)) (Val "AccountInfo" "default")
              sample_world)) = Returned None /\
  heap (snd (SendRateLimitedHTTPRequest exhausted_client
               (sample_env 1010 "{ok}" 200 None) 3 "GET" binanceAccountPath ∅
               (Ptr "AccountInfo" (Some 0%nat)) (Val "AccountInfo" "default")
               sample_world)) = {[ 0%nat := "default" ]} /\
  sent (snd (SendRateLimitedHTTPRequest exhausted_client
               (sample_env 1010 "{ok}" 200 None) 3 "GET" binanceAccountPath ∅
               (Ptr "AccountInfo" (Some 0%nat)) (Val "AccountInfo" "default")
               sample_world)) = [].
Proof.
  assert (Hn : 3 <= count_found exhausted_client (sample_env 1010 "{ok}" 200 None)
                      "GET" binanceAccountPath) by (vm_compute; discriminate).
  destruct (exhausted_call_default 3 exhausted_client (sample_env 1010 "{ok}" 200 None)
              "GET" binanceAccountPath ∅ (Ptr "AccountInfo" (Some 0%nat))
              (Val "AccountInfo" "default") sample_world Hn)
    as (Hsent & _ & Hcopy & _).
  destruct (Hcopy "AccountInfo" 0%nat "default" eq_refl eq_refl) as [Hout Hheap].
  split; [exact Hout|]. split; [|exact Hsent].
  rewrite Hheap. vm_compute. reflexivity.
Defined.

Section Windows.
Context {Data : Type} `{!Externals Data}.

(** Any sequence of calls keeps the window record within the budget. *)
Lemma run_calls_entry_ok n method path (cs : list Call) :
  0 <= n < 2 ^ 64 ->
  forall (b : Binance) (w : World Data),
  entry_ok n (entry b method path) ->
  Forall (fun c => clock_ok (now_Unix (c_env c))) cs ->
  entry_ok n (entry (snd (fst (run_calls n method path cs b w))) method path).
Proof.
  intros Hn. induction cs as [|c cs IH]; intros b w Hok Hcs; simpl; [exact Hok|].
  inversion Hcs as [|? ? Hc Hcs']; subst.
  apply IH; [|exact Hcs'].
  unfold call. apply rate_limited_entry_ok; assumption.
Qed.

(** Calls inside the window opened at [t0], the first of them being call
    number [i] of the window. *)
Lemma window_paths_inside n method path t0 (cs : list Call) :
  0 <= n < 2 ^ 64 -> clock_ok t0 ->
  forall (i : Z) (b : Binance) (w : World Data),
  0 <= i ->
  entry b method path = mkRateLimitInfo t0 (Z.min n i) ->
  Forall (fun c => clock_ok (now_Unix (c_env c)) /\ now_Unix (c_env c) - t0 <= 90) cs ->
  window_paths n method path cs i b w.
Proof.
  intros Hn Ht0. induction cs as [|c cs IH]; intros i b w Hi Hb Hcs; simpl; [exact I|].
  inversion Hcs as [|? ? [Hc Hin] Hcs']; subst.
  assert (Hok : entry_ok n (entry b method path)).
  { rewrite Hb. split; simpl; [lia|auto]. }
  assert (Hcount : window_count b (c_env c) method path = Z.min n i).
  { unfold window_count, elapsed. rewrite Hb. simpl.
    assert ((90 <? now_Unix (c_env c) - t0) = false) as -> by (apply Z.ltb_ge; lia).
    reflexivity. }
  assert (Hstart : window_start b (c_env c) method path = t0).
  { unfold window_start, elapsed. rewrite Hb. simpl.
    assert ((90 <? now_Unix (c_env c) - t0) = false) as -> by (apply Z.ltb_ge; lia).
    reflexivity. }
  unfold call.
  rewrite (rate_limited_step n) by assumption. rewrite Hcount.
  destruct (i <? n) eqn:E.
  - apply Z.ltb_lt in E.
    assert ((Z.min n i <? n) = true) as -> by (apply Z.ltb_lt; lia).
    split; [reflexivity|].
    apply (IH (i + 1)); [lia| |exact Hcs'].
    unfold network_path. simpl. rewrite entry_counted, Hstart. f_equal. lia.
  - apply Z.ltb_ge in E.
    assert ((Z.min n i <? n) = false) as -> by (apply Z.ltb_ge; lia).
    split; [reflexivity|].
    apply (IH (i + 1)); [lia| |exact Hcs'].
    unfold default_path. simpl. rewrite entry_counted, Hstart. f_equal. lia.
Qed.

End Windows.

(** C3.  For an endpoint with budget [n] and clock readings later than 90
    seconds after the epoch: a call resets the window (start := now, count
    := 0, before its own admission) exactly when more than 90 seconds have
    passed since the window start, and otherwise leaves the start alone and
    adds one to the count unless the count has reached [n]; after any
    sequence of calls the count is at most [n]; and of the calls of one
    window, opened by a call and continued by calls at most 90 seconds
    after it, those numbered below [n] go to the network and all later
    ones to the default value. *)
Theorem rate_limit_window {Data : Type} `{!Externals Data}
    (n : Z) (method path : string) :
  0 <= n < 2 ^ 64 ->
  (forall (b : Binance) (env : Env) (params : url.Values) (result dv : value Data)
          (w : World Data),
     entry_ok n (entry b method path) -> clock_ok (now_Unix env) ->
     let rl := entry b method path in
     let rl' :=
       entry (snd (fst (SendRateLimitedHTTPRequest b env n method path params
                          result dv w))) method path in
     (if 90 <? now_Unix env - StartTime rl
      then StartTime rl' = now_Unix env /\ RequestCount rl' = Z.min n 1
      else StartTime rl' = StartTime rl /\
           RequestCount rl' = Z.min n (RequestCount rl + 1)) /\
     RequestCount rl' <= n) /\
  (forall (cs : list Call) (b : Binance) (w : World Data),
     entry_ok n (entry b method path) ->
     Forall (fun c => clock_ok (now_Unix (c_env c))) cs ->
     RequestCount (entry (snd (fst (run_calls n method path cs b w))) method path) <= n) /\
  (forall (c : Call) (cs : list Call) (b : Binance) (w : World Data),
     entry_ok n (entry b method path) -> clock_ok (now_Unix (c_env c)) ->
     90 < now_Unix (c_env c) - StartTime (entry b method path) ->
     Forall (fun c' => clock_ok (now_Unix (c_env c')) /\
                       now_Unix (c_env c') - now_Unix (c_env c) <= 90) cs ->
     window_paths n method path (c :: cs) 0 b w).
Proof.
  intros Hn. split; [|split].
  - intros b env params result dv w Hok Ht. cbv zeta.
    rewrite (rate_limited_client n) by assumption. rewrite entry_counted. simpl.
    pose proof (window_count_range n b env method path Hok) as Hc.
    unfold window_start, window_count, elapsed in *.
    destruct (90 <? now_Unix env - StartTime (entry b method path)); simpl.
    + split; [auto|lia].
    + split; [auto|lia].
  - intros cs b w Hok Hcs.
    apply (run_calls_entry_ok n method path cs Hn b w Hok Hcs).
  - intros c cs b w Hok Hc Hopen Hcs.
    assert (Hover : (90 <? elapsed b (c_env c) method path) = true).
    { apply Z.ltb_lt. exact Hopen. }
    assert (Hcount : window_count b (c_env c) method path = 0).
    { unfold window_count. rewrite Hover. reflexivity. }
    assert (Hstart : window_start b (c_env c) method path = now_Unix (c_env c)).
    { unfold window_start. rewrite Hover. reflexivity. }
    simpl. unfold call.
    rewrite (rate_limited_step n) by assumption. rewrite Hcount.
    destruct (0 <? n) eqn:E.
    + apply Z.ltb_lt in E. split; [reflexivity|].
      apply (window_paths_inside n method path (now_Unix (c_env c))); try assumption; [lia|].
      unfold network_path. simpl. rewrite entry_counted, Hstart. f_equal. lia.
    + apply Z.ltb_ge in E. split; [reflexivity|].
      apply (window_paths_inside n method path (now_Unix (c_env c))); try assumption; [lia|].
      unfold default_path. simpl. rewrite entry_counted, Hstart. f_equal. lia.
Qed.

Lemma rate_limit_window_witness :
  window_paths 3 "GET" binanceAccountPath
    [sample_call 1000; sample_call 1010; sample_call 1020; sample_call 1030;
     sample_call 1090] 0 (sample_client true) sample_world.
Proof.
  assert (Hn : 0 <= 3 < 2 ^ 64) by (split; [discriminate|reflexivity]).
  apply (proj2 (proj2 (rate_limit_window 3 "GET" binanceAccountPath Hn))).
  - split; [vm_compute; split; discriminate | left; reflexivity].
  - split; reflexivity.
  - vm_compute. reflexivity.
  - repeat constructor; try reflexivity; vm_compute; discriminate.
Defined.

End ratelimit_props.

(** ** Facts about concurrent calls *)

Module race_facts.
Import binance binance_spec race.

#[local] Open Scope Z_scope.

Lemma cell_write s p rl : cell (write s p rl) p = rl.
Proof. unfold cell, write. simpl. rewrite lookup_insert_eq. reflexivity. Qed.

Lemma write_write s p r1 r2 : write (write s p r1) p r2 = write s p r2.
Proof. unfold write. simpl. rewrite insert_insert_eq. reflexivity. Qed.

Lemma wf_write s p rl : wf s -> is_Some (cells s !! p) -> wf (write s p rl).
Proof.
  intros [Hc Hi] Hp. split; simpl.
  - intros k q Hk. destruct (decide (p = q)) as [<-|Hne].
    + rewrite lookup_insert_eq. eauto.
    + rewrite lookup_insert_ne by done. eauto.
  - exact Hi.
Qed.

Lemma view_write s key p rl :
  wf s -> table s !! key = Some p ->
  view (write s p rl) = <[ key := rl ]> (view s).
Proof.
  intros [Hc Hi] Hk. apply map_eq. intros k. unfold view, write. simpl.
  rewrite lookup_omap. destruct (decide (key = k)) as [<-|Hne].
  - rewrite lookup_insert_eq, Hk. simpl. apply lookup_insert_eq.
  - rewrite lookup_insert_ne by done. rewrite lookup_omap.
    destruct (table s !! k) as [q|] eqn:Eq; simpl; [|reflexivity].
    rewrite lookup_insert_ne; [reflexivity|].
    intros <-. apply Hne. exact (Hi _ _ _ Hk Eq).
Qed.

Lemma view_lookup s key p :
  table s !! key = Some p -> view s !! key = cells s !! p.
Proof. intros Hk. unfold view. rewrite lookup_omap, Hk. reflexivity. Qed.

(** Lines 254-257 on a key that has no record yet. *)
Lemma alloc_spec s key :
  wf s -> table s !! key = None ->
  let p := fresh (dom (cells s)) in
  let s1 := {| table := <[ key := p ]> (table s);
               cells := <[ p := mkRateLimitInfo 0 0 ]> (cells s) |} in
  wf s1 /\ table s1 !! key = Some p /\ cell s1 p = mkRateLimitInfo 0 0 /\
  view s1 = <[ key := mkRateLimitInfo 0 0 ]> (view s).
Proof.
  intros [Hc Hi] Hk. cbv zeta.
  set (p := fresh (dom (cells s))).
  assert (Hp : cells s !! p = None).
  { apply not_elem_of_dom. unfold p. apply is_fresh. }
  assert (Hnot : forall k, table s !! k <> Some p).
  { intros k Hkp. destruct (Hc _ _ Hkp) as [x Hx]. congruence. }
  split; [|split; [|split]].
  - split; simpl.
    + intros k q. destruct (decide (key = k)) as [<-|Hne].
      * rewrite lookup_insert_eq. intros [= <-]. rewrite lookup_insert_eq. eauto.
      * rewrite lookup_insert_ne by done. intros Hq.
        destruct (Hc _ _ Hq) as [x Hx].
        rewrite lookup_insert_ne by congruence. eauto.
    + intros k1 k2 q.
      destruct (decide (key = k1)) as [<-|H1]; destruct (decide (key = k2)) as [<-|H2];
        rewrite ?lookup_insert_eq, ?lookup_insert_ne by done.
      * reflexivity.
      * intros [= <-] Hq. exfalso. exact (Hnot _ Hq).
      * intros Hq [= <-]. exfalso. exact (Hnot _ Hq).
      * apply Hi.
  - simpl. apply lookup_insert_eq.
  - unfold cell. simpl. rewrite lookup_insert_eq. reflexivity.
  - apply map_eq. intros k. unfold view. simpl. rewrite lookup_omap.
    destruct (decide (key = k)) as [<-|Hne].
    + rewrite !lookup_insert_eq. simpl. apply lookup_insert_eq.
    + rewrite !lookup_insert_ne by done. rewrite lookup_omap.
      destruct (table s !! k) as [q|] eqn:Eq; simpl; [|reflexivity].
      rewrite lookup_insert_ne; [reflexivity|].
      intros <-. exact (Hnot _ Eq).
Qed.

(** The statements, one by one. *)
Lemma steps_S k th s : steps (S k) th s = steps k (fst (step th s)) (snd (step th s)).
Proof. simpl. destruct (step th s) as [th' s']. reflexivity. Qed.

Lemma steps_O th s : steps 0 th s = (th, s).
Proof. reflexivity. Qed.

Lemma step_WindowTest key n t p s :
  step (mkThread key n t (AtWindowTest p)) s =
  (mkThread key n t
     (if (StartTime (cell s p) =? 0) || (wrap_int64 (t - StartTime (cell s p)) >? 90)
      then AtResetCount p else AtBudgetTest p), s).
Proof.
  unfold step. simpl.
  destruct ((StartTime (cell s p) =? 0) || (wrap_int64 (t - StartTime (cell s p)) >? 90));
    reflexivity.
Qed.

Lemma step_ResetCount key n t p s :
  step (mkThread key n t (AtResetCount p)) s =
  (mkThread key n t (AtResetStart p),
   write s p (mkRateLimitInfo (StartTime (cell s p)) 0)).
Proof. reflexivity. Qed.

Lemma step_ResetStart key n t p s :
  step (mkThread key n t (AtResetStart p)) s =
  (mkThread key n t (AtBudgetTest p),
   write s p (mkRateLimitInfo t (RequestCount (cell s p)))).
Proof. reflexivity. Qed.

Lemma step_BudgetTest key n t p s :
  step (mkThread key n t (AtBudgetTest p)) s =
  (mkThread key n t (if RequestCount (cell s p) <? n then AtIncrement p else ToDefault), s).
Proof.
  unfold step. simpl. destruct (RequestCount (cell s p) <? n); reflexivity.
Qed.

Lemma step_Increment key n t p s :
  step (mkThread key n t (AtIncrement p)) s =
  (mkThread key n t ToNetwork,
   write s p (mkRateLimitInfo (StartTime (cell s p))
                (wrap_uint (RequestCount (cell s p) + 1)))).
Proof. reflexivity. Qed.

Lemma step_ToNetwork key n t s :
  step (mkThread key n t ToNetwork) s = (mkThread key n t ToNetwork, s).
Proof. reflexivity. Qed.

Lemma step_ToDefault key n t s :
  step (mkThread key n t ToDefault) s = (mkThread key n t ToDefault, s).
Proof. reflexivity. Qed.

Ltac run_thread :=
  repeat (progress
            (rewrite ?steps_S, ?steps_O, ?step_ResetCount, ?step_ResetStart,
               ?step_Increment, ?step_ToNetwork, ?step_ToDefault,
               ?cell_write, ?write_write;
             cbn [fst snd StartTime RequestCount])).

(** Lines 259-265 of a call on its own, from a state that has the record. *)
Lemma settle_spec s key n t p :
  wf s -> table s !! key = Some p -> is_Some (cells s !! p) ->
  let r := steps 5 (mkThread key n t (AtWindowTest p)) s in
  t_pc (fst r) = (if admitted n t (cell s p) then ToNetwork else ToDefault) /\
  view (snd r) = <[ key := accounted n t (cell s p) ]> (view s) /\
  wf (snd r).
Proof.
  intros Hwf Hk Hp. cbv zeta. unfold admitted, accounted.
  assert (Hid : <[ key := cell s p ]> (view s) = view s).
  { apply insert_id. rewrite (view_lookup _ _ _ Hk). unfold cell.
    destruct Hp as [x ->]. reflexivity. }
  rewrite steps_S, step_WindowTest. cbn [fst snd].
  destruct ((StartTime (cell s p) =? 0) ||
            (wrap_int64 (t - StartTime (cell s p)) >? 90)).
  - run_thread. rewrite step_BudgetTest. run_thread.
    destruct (0 <? n); run_thread.
    + split; [reflexivity|]. split; [apply view_write; assumption|].
      apply wf_write; assumption.
    + split; [reflexivity|]. split; [apply view_write; assumption|].
      apply wf_write; assumption.
  - rewrite steps_S, step_BudgetTest. cbn [fst snd].
    destruct (RequestCount (cell s p) <? n); run_thread.
    + split; [reflexivity|]. split; [apply view_write; assumption|].
      apply wf_write; assumption.
    + split; [reflexivity|]. split; [symmetry; exact Hid|exact Hwf].
Qed.

(** A call on its own does the accounting of the sequential reading. *)
Lemma solo_spec s key n t :
  wf s ->
  let rl := default (mkRateLimitInfo 0 0) (view s !! key) in
  t_pc (fst (solo (start key n t) s)) =
    (if admitted n t rl then ToNetwork else ToDefault) /\
  view (snd (solo (start key n t) s)) = <[ key := accounted n t rl ]> (view s) /\
  wf (snd (solo (start key n t) s)).
Proof.
  intros Hwf. cbv zeta. unfold solo, start.
  assert (Hfirst : forall k,
            steps (S (S k)) (mkThread key n t AtLookup) s =
            steps k (fst (step (mkThread key n t (AtNilCheck (table s !! key))) s))
              (snd (step (mkThread key n t (AtNilCheck (table s !! key))) s)))
    by (intros k; rewrite !steps_S; reflexivity).
  rewrite !Hfirst. clear Hfirst.
  destruct (table s !! key) as [p|] eqn:Hk.
  - change (step (mkThread key n t (AtNilCheck (Some p))) s)
      with (mkThread key n t (AtWindowTest p), s). cbn [fst snd].
    assert (Hp : is_Some (cells s !! p)) by (destruct Hwf as [Hc _]; eauto).
    rewrite (view_lookup _ _ _ Hk).
    exact (settle_spec s key n t p Hwf Hk Hp).
  - destruct (alloc_spec s key Hwf Hk) as (Hwf1 & Hk1 & Hcell & Hview).
    cbv zeta in Hwf1, Hk1, Hcell, Hview.
    change (step (mkThread key n t (AtNilCheck None)) s)
      with (mkThread key n t (AtWindowTest (fresh (dom (cells s)))),
            {| table := <[ key := fresh (dom (cells s)) ]> (table s);
               cells := <[ fresh (dom (cells s)) := mkRateLimitInfo 0 0 ]> (cells s) |}).
    cbn [fst snd].
    set (p := fresh (dom (cells s))) in *.
    set (s1 := {| table := <[ key := p ]> (table s);
                  cells := <[ p := mkRateLimitInfo 0 0 ]> (cells s) |}) in *.
    assert (Hp : is_Some (cells s1 !! p)).
    { unfold s1. simpl. rewrite lookup_insert_eq. eauto. }
    destruct (settle_spec s1 key n t p Hwf1 Hk1 Hp) as (H1 & H2 & H3).
    cbv zeta in H1, H2, H3. rewrite Hcell in H1, H2.
    assert (Hnone : view s !! key = None).
    { unfold view. rewrite lookup_omap, Hk. reflexivity. }
    rewrite Hnone. simpl default.
    split; [exact H1|]. split; [|exact H3].
    rewrite H2, Hview. apply insert_insert_eq.
Qed.

Lemma exec_app l1 l2 a b s :
  exec (l1 ++ l2) a b s =
  exec l2 (fst (fst (exec l1 a b s))) (snd (fst (exec l1 a b s))) (snd (exec l1 a b s)).
Proof.
  revert a b s. induction l1 as [|[] l1 IH]; intros a b s; simpl.
  - reflexivity.
  - destruct (step a s) as [a' s']. apply IH.
  - destruct (step b s) as [b' s']. apply IH.
Qed.

Lemma exec_first k a b s :
  exec (replicate k true) a b s = (fst (steps k a s), b, snd (steps k a s)).
Proof.
  revert a s. induction k as [|k IH]; intros a s; simpl; [reflexivity|].
  destruct (step a s) as [a' s']. apply IH.
Qed.

Lemma exec_second k a b s :
  exec (replicate k false) a b s = (a, fst (steps k b s), snd (steps k b s)).
Proof.
  revert b s. induction k as [|k IH]; intros b s; simpl; [reflexivity|].
  destruct (step b s) as [b' s']. apply IH.
Qed.

Lemma exec_serial a b s :
  exec serial a b s =
  (fst (solo a s), fst (solo b (snd (solo a s))), snd (solo b (snd (solo a s)))).
Proof.
  unfold serial, solo. rewrite exec_app, exec_first. cbn [fst snd].
  rewrite exec_second. reflexivity.
Qed.

Section Sequential.
Context {Data : Type} `{!Externals Data}.

(** The sequential function does the same accounting. *)
Lemma rate_limited_accounting b env n method path params (result dv : value Data)
    (w : World Data) :
  let rl := entry b method path in
  let b' :=
    with_rateLimits b
      (<[ method +:+ path := accounted n (now_Unix env) rl ]> (rateLimits b)) in
  SendRateLimitedHTTPRequest b env n method path params result dv w =
  if admitted n (now_Unix env) rl
  then network_path b' env method path params result w
  else default_path b' result dv w.
Proof.
  cbv zeta. unfold SendRateLimitedHTTPRequest, admitted, accounted.
  change (match rateLimits b !! (method +:+ path) with
          | Some rl => rl
          | None => mkRateLimitInfo 0 0
          end) with (entry b method path).
  destruct (entry b method path) as [S c]. cbn [StartTime RequestCount].
  destruct ((S =? 0) || (wrap_int64 (now_Unix env - S) >? 90));
    cbn [StartTime RequestCount].
  - destruct (0 <? n).
    + unfold network_path.
      destruct (SendHTTPRequest _ env method path params true result w) as [[c' e] w'].
      reflexivity.
    + unfold default_path.
      destruct (setResultToDefault result dv (heap w)) as [out h]. reflexivity.
  - destruct (c <? n).
    + unfold network_path.
      destruct (SendHTTPRequest _ env method path params true result w) as [[c' e] w'].
      reflexivity.
    + unfold default_path.
      destruct (setResultToDefault result dv (heap w)) as [out h]. reflexivity.
Qed.

Lemma rate_limited_rateLimits b env n method path params (result dv : value Data)
    (w : World Data) :
  rateLimits (snd (fst (SendRateLimitedHTTPRequest b env n method path params
                          result dv w))) =
  <[ method +:+ path := accounted n (now_Unix env) (entry b method path) ]> (rateLimits b).
Proof.
  rewrite rate_limited_accounting. cbv zeta.
  destruct (admitted n (now_Unix env) (entry b method path)); reflexivity.
Qed.

End Sequential.

End race_facts.

(** ** Properties of concurrent calls *)

Module race_props.
Import binance binance_spec race race_facts ratelimit_facts.

#[local] Open Scope Z_scope.

(** C9, as stated, at two calls to one endpoint with budget 1, both at
    clock 1000, on a client that has not used the endpoint: under the
    schedule [racy] both calls pass the budget test and go to the network,
    and the window count ends at 2. *)
Lemma interleaved_calls_exceed_budget :
  t_pc (fst (fst (exec racy (start "GETapi/v3/account" 1 1000)
                    (start "GETapi/v3/account" 1 1000) (mkShared ∅ ∅)))) = ToNetwork /\
  t_pc (snd (fst (exec racy (start "GETapi/v3/account" 1 1000)
                    (start "GETapi/v3/account" 1 1000) (mkShared ∅ ∅)))) = ToNetwork /\
  view (snd (exec racy (start "GETapi/v3/account" 1 1000)
               (start "GETapi/v3/account" 1 1000) (mkShared ∅ ∅)))
    !! "GETapi/v3/account" = Some (mkRateLimitInfo 1000 2) /\
  ~ (2 <= 1).
Proof.
  split; [vm_compute; reflexivity|].
  split; [vm_compute; reflexivity|].
  split; [vm_compute; reflexivity|].
  intros H. vm_compute in H. apply H. reflexivity.
Qed.

(** C9, amended.  No statement of the accounting takes a lock.  Two calls
    to an endpoint that run one after the other both run to their end, go
    to the network or to the default value as the sequential function
    does, and leave the window records the sequential function leaves; the
    count then stays within the budget. *)
Theorem serial_calls_account {Data : Type} `{!Externals Data}
    (n : Z) (method path : string) (b : Binance) (s : Shared)
    (c1 c2 : Call) (w : World Data) :
  wf s -> view s = rateLimits b ->
  let r :=
    exec serial (start (method +:+ path) n (now_Unix (c_env c1)))
      (start (method +:+ path) n (now_Unix (c_env c2))) s in
  let r1 := call n method path c1 b w in
  let r2 := call n method path c2 (snd (fst r1)) (snd r1) in
  agrees (t_pc (fst (fst r))) r1 (c_env c1) method path c1 w /\
  agrees (t_pc (snd (fst r))) r2 (c_env c2) method path c2 (snd r1) /\
  view (snd r) = rateLimits (snd (fst r2)) /\
  (0 <= n < 2 ^ 64 -> entry_ok n (entry b method path) ->
   clock_ok (now_Unix (c_env c1)) -> clock_ok (now_Unix (c_env c2)) ->
   RequestCount (default (mkRateLimitInfo 0 0) (view (snd r) !! (method +:+ path))) <= n).
Proof.
  intros Hwf Hview. cbv zeta. rewrite exec_serial. cbn [fst snd].
  destruct (solo_spec s (method +:+ path) n (now_Unix (c_env c1)) Hwf) as (Hp1 & Hv1 & Hwf1).
  cbv zeta in Hp1, Hv1.
  destruct (solo_spec _ (method +:+ path) n (now_Unix (c_env c2)) Hwf1) as (Hp2 & Hv2 & Hwf2).
  cbv zeta in Hp2, Hv2.
  set (s1 := snd (solo (start (method +:+ path) n (now_Unix (c_env c1))) s)) in *.
  set (s2 := snd (solo (start (method +:+ path) n (now_Unix (c_env c2))) s1)) in *.
  assert (Hcall : forall c b0 w0,
            call n method path c b0 w0 =
            if admitted n (now_Unix (c_env c)) (entry b0 method path)
            then network_path (snd (fst (call n method path c b0 w0))) (c_env c)
                   method path (c_params c) (c_result c) w0
            else default_path (snd (fst (call n method path c b0 w0)))
                   (c_result c) (c_default c) w0).
  { intros c b0 w0. unfold call.
    rewrite (rate_limited_accounting b0 (c_env c) n method path). cbv zeta.
    destruct (admitted n (now_Unix (c_env c)) (entry b0 method path)); reflexivity. }
  assert (Hlim : forall c b0 w0,
            rateLimits (snd (fst (call n method path c b0 w0))) =
            <[ method +:+ path := accounted n (now_Unix (c_env c)) (entry b0 method path) ]>
              (rateLimits b0)).
  { intros c b0 w0. unfold call. apply rate_limited_rateLimits. }
  set (r1 := call n method path c1 b w) in *.
  assert (Hr1 : rateLimits (snd (fst r1)) = view s1).
  { unfold r1. rewrite Hlim, Hv1, Hview. reflexivity. }
  set (r2 := call n method path c2 (snd (fst r1)) (snd r1)) in *.
  assert (Hr2 : rateLimits (snd (fst r2)) = view s2).
  { unfold r2. rewrite Hlim, Hv2. unfold entry. rewrite Hr1. reflexivity. }
  split; [|split; [|split]].
  - rewrite Hp1, Hview.
    change (default (mkRateLimitInfo 0 0) (rateLimits b !! (method +:+ path)))
      with (entry b method path).
    unfold agrees. pose proof (Hcall c1 b w) as H1. fold r1 in H1.
    destruct (admitted n (now_Unix (c_env c1)) (entry b method path)); exact H1.
  - rewrite Hp2, <- Hr1.
    change (default (mkRateLimitInfo 0 0)
              (rateLimits (snd (fst r1)) !! (method +:+ path)))
      with (entry (snd (fst r1)) method path).
    unfold agrees. pose proof (Hcall c2 (snd (fst r1)) (snd r1)) as H2. fold r2 in H2.
    destruct (admitted n (now_Unix (c_env c2)) (entry (snd (fst r1)) method path));
      exact H2.
  - symmetry. exact Hr2.
  - intros Hn Hok Hc1 Hc2. rewrite <- Hr2.
    change (default (mkRateLimitInfo 0 0) (rateLimits (snd (fst r2)) !! (method +:+ path)))
      with (entry (snd (fst r2)) method path).
    unfold r2, call.
    apply (rate_limited_entry_ok n); [assumption| |assumption].
    unfold r1, call. apply (rate_limited_entry_ok n); assumption.
Qed.

Lemma serial_calls_account_witness :
  view (snd (exec serial (start "GETapi/v3/account" 1 1000)
               (start "GETapi/v3/account" 1 1010) (mkShared ∅ ∅))) =
    rateLimits
      (snd (fst (run_calls 1 "GET" binanceAccountPath
                   [mkCall (sample_env 1000 "{ok}" 200 None) ∅ Nil Nil;
                    mkCall (sample_env 1010 "{ok}" 200 None) ∅ Nil Nil]
                   (sample_client true) sample_world))) /\
  RequestCount
    (default (mkRateLimitInfo 0 0)
       (view (snd (exec serial (start "GETapi/v3/account" 1 1000)
                     (start "GETapi/v3/account" 1 1010) (mkShared ∅ ∅)))
          !! "GETapi/v3/account")) <= 1.
Proof.
  assert (Hwf : wf (mkShared ∅ ∅)).
  { split; simpl; intros *; rewrite lookup_empty; discriminate. }
  destruct (serial_calls_account (Data := string) 1 "GET" binanceAccountPath
              (sample_client true) (mkShared ∅ ∅)
              (mkCall (sample_env 1000 "{ok}" 200 None) ∅ Nil Nil)
              (mkCall (sample_env 1010 "{ok}" 200 None) ∅ Nil Nil)
              sample_world Hwf eq_refl) as (_ & _ & Hv & Hc).
  split; [exact Hv|].
  apply Hc.
  - split; [discriminate|reflexivity].
  - split; [vm_compute; split; discriminate|left; reflexivity].
  - split; reflexivity.
  - split; reflexivity.
Defined.

End race_props.

(** ** Further properties of the order-book store *)

Module orderbook_more.
Import pair orderbook pair_facts orderbook_facts orderbook_history.

Lemma insert3_insert3_eq o b q t x y :
  insert3 (insert3 o b q t x) b q t y = insert3 o b q t y.
Proof.
  unfold insert3. simpl. rewrite !lookup_insert_eq. simpl.
  rewrite !lookup_insert_eq. simpl. rewrite !insert_insert_eq. reflexivity.
Qed.

Lemma insert3_insert3_ne o b q t x b' q' t' y :
  ~ (b = b' /\ q = q' /\ t = t') ->
  insert3 (insert3 o b q t x) b' q' t' y = insert3 (insert3 o b' q' t' y) b q t x.
Proof.
  intros Hne. unfold insert3. simpl. f_equal.
  destruct (decide (b = b')) as [<-|Hb].
  - rewrite !lookup_insert_eq. simpl. rewrite !insert_insert_eq. f_equal.
    destruct (decide (q = q')) as [<-|Hq].
    + rewrite !lookup_insert_eq. simpl. rewrite !insert_insert_eq. f_equal.
      apply insert_insert_ne. intros <-. apply Hne. auto.
    + rewrite !lookup_insert_ne by done. apply insert_insert_ne. congruence.
  - rewrite !lookup_insert_ne by done. apply insert_insert_ne. congruence.
Qed.

Lemma canonical_Init : canonical Init.
Proof. intros b m1 H. unfold Init in H. simpl in H. rewrite lookup_empty in H. discriminate. Qed.

Lemma canonical_insert3 o b q t x :
  canonical o -> Lower b = b -> Lower q = q -> CurrencyPair x = b +:+ "/" +:+ q ->
  canonical (insert3 o b q t x).
Proof.
  intros Hc Hb Hq Hx b' m1'. unfold insert3. simpl.
  destruct (decide (b = b')) as [<-|Hne].
  - rewrite lookup_insert_eq. intros [= <-].
    split; [exact Hb|]. split; [apply insert_non_empty|].
    intros q' m2'. destruct (decide (q = q')) as [<-|Hneq].
    + rewrite lookup_insert_eq. intros [= <-].
      split; [exact Hq|]. split; [apply insert_non_empty|].
      intros t' x'. destruct (decide (t = t')) as [<-|Hnet].
      * rewrite lookup_insert_eq. intros [= <-]. exact Hx.
      * rewrite lookup_insert_ne by done.
        destruct (orderbooks o !! b) as [m1|] eqn:E1; simpl;
          [|rewrite lookup_empty; discriminate].
        destruct (m1 !! q) as [m2|] eqn:E2; simpl; [|rewrite lookup_empty; discriminate].
        intros Ht. destruct (Hc _ _ E1) as (_ & _ & H2).
        destruct (H2 _ _ E2) as (_ & _ & H3). exact (H3 _ _ Ht).
    + rewrite lookup_insert_ne by done.
      destruct (orderbooks o !! b) as [m1|] eqn:E1; simpl;
        [|rewrite lookup_empty; discriminate].
      intros E2. destruct (Hc _ _ E1) as (_ & _ & H2). exact (H2 _ _ E2).
  - rewrite lookup_insert_ne by done. apply Hc.
Qed.

Lemma run_canonical us : forall o o', canonical o -> run us o = Some o' -> canonical o'.
Proof.
  induction us as [|u us IH]; simpl; intros o o' Hc Hrun.
  - injection Hrun as <-. exact Hc.
  - rewrite apply_upsert_insert3 in Hrun. simpl in Hrun.
    eapply IH; [|exact Hrun].
    apply canonical_insert3; [exact Hc| | |reflexivity].
    + apply Lower_idem.
    + apply Lower_idem.
Qed.

Lemma FirstCurrencyExists_has_base o c :
  FirstCurrencyExists o c = true <-> has_base o (Lower c).
Proof.
  unfold FirstCurrencyExists, formatCurrency, has_base.
  destruct (orderbooks o !! Lower c); split; eauto; try discriminate.
  intros [? ?]. discriminate.
Qed.

Lemma SecondCurrencyExists_has_pair o p :
  SecondCurrencyExists o p = true <-> has_pair o (base_key p) (quote_key p).
Proof.
  unfold SecondCurrencyExists, has_pair.
  change (GetFirstCurrency (formatCurrencyPair p)) with (base_key p).
  change (GetSecondCurrency (formatCurrencyPair p)) with (quote_key p).
  destruct (orderbooks o !! base_key p) as [m1|].
  - destruct (m1 !! quote_key p) as [m2|] eqn:E.
    + split; [|reflexivity].
      intros _. exists m1. split; [reflexivity|]. rewrite E. eauto.
    + split; [discriminate|].
      intros (m & [= <-] & [? Hx]). rewrite E in Hx. discriminate.
  - split; [discriminate|]. intros (m & [=] & _).
Qed.

(** X1.  On any store whose maps are allocated at every level, as [Init]
    and [ProcessOrderbook] make them, [ProcessOrderbook] does not panic; it
    leaves the snapshot of every other key triple as it was and removes no
    base and no pair. *)
Theorem upsert_touches_one_triple (e : string) (o : Orderbooks)
    (p : pair.CurrencyPair) (x : Base) (t : string) (now : Z) :
  exists o',
    ProcessOrderbook e o p x t now = Some o' /\
    (forall b q t',
       ~ (b = base_key p /\ q = quote_key p /\ t' = t) ->
       lookup3 o' b q t' = lookup3 o b q t') /\
    (forall b, has_base o b -> has_base o' b) /\
    (forall b q, has_pair o b q -> has_pair o' b q).
Proof.
  eexists. split; [apply ProcessOrderbook_insert3|].
  split; [|split].
  - intros b q t' Hne. apply lookup3_insert3_ne.
    intros (Hb & Hq & Ht). apply Hne. auto.
  - intros b Hb. apply has_base_insert3. auto.
  - intros b q Hq. apply has_pair_insert3. auto.
Qed.

(** X2.  In a store built by upserts from [Init], every base key and every
    quote key is in lower case, every base has a quote under it and every
    pair a book type, and every snapshot carries the pair string
    [base/quote] of the keys it is stored under. *)
Theorem store_keys_canonical (us : list upsert) (o : Orderbooks) :
  run us Init = Some o ->
  (forall b, has_base o b -> Lower b = b /\ exists q, has_pair o b q) /\
  (forall b q, has_pair o b q ->
     Lower q = q /\ exists t x, lookup3 o b q t = Some x) /\
  (forall b q t x, lookup3 o b q t = Some x -> CurrencyPair x = b +:+ "/" +:+ q).
Proof.
  intros Hrun. pose proof (run_canonical us _ _ canonical_Init Hrun) as Hc.
  split; [|split].
  - intros b [m1 E1]. destruct (Hc _ _ E1) as (Hb & Hne & _).
    split; [exact Hb|].
    destruct (map_choose _ Hne) as (q & m2 & E2).
    exists q, m1. split; [exact E1|]. rewrite E2. eauto.
  - intros b q (m1 & E1 & [m2 E2]). destruct (Hc _ _ E1) as (_ & _ & H2).
    destruct (H2 _ _ E2) as (Hq & Hne & _). split; [exact Hq|].
    destruct (map_choose _ Hne) as (t & x & E3).
    exists t, x. unfold lookup3. rewrite E1. simpl. rewrite E2. exact E3.
  - intros b q t x. unfold lookup3.
    destruct (orderbooks o !! b) as [m1|] eqn:E1; simpl; [|discriminate].
    destruct (m1 !! q) as [m2|] eqn:E2; simpl; [|discriminate].
    intros E3. destruct (Hc _ _ E1) as (_ & _ & H2).
    destruct (H2 _ _ E2) as (_ & _ & H3). exact (H3 _ _ E3).
Qed.

Lemma store_keys_canonical_witness :
  exists o, run sample_upserts Init = Some o /\
    (has_base o "btc" /\ ~ has_base o "BTC") /\
    (forall b q t x, lookup3 o b q t = Some x -> CurrencyPair x = b +:+ "/" +:+ q).
Proof.
  destruct (run sample_upserts Init) as [o|] eqn:Hrun; [|vm_compute in Hrun; discriminate].
  exists o. split; [reflexivity|].
  destruct (store_keys_canonical sample_upserts o Hrun) as (Hb & _ & Hx).
  split; [|exact Hx]. split.
  - apply (run_has_base sample_upserts "btc" _ _ Hrun). right.
    apply Exists_cons_hd. reflexivity.
  - intros H. destruct (Hb _ H) as [Hl _]. vm_compute in Hl. discriminate.
Defined.

(** X3.  The existence probes fold the case of what they are asked:
    [FirstCurrencyExists] holds exactly when the lower-cased symbol is a
    base key, [SecondCurrencyExists] exactly when the canonical pair is
    present, so variants of a pair get the same answer; a pair that exists
    has a base that exists; and after an upsert of a pair both probes hold
    for every variant of it. *)
Theorem probes_fold_case (o : Orderbooks) (p : pair.CurrencyPair) :
  (forall c, FirstCurrencyExists o c = true <-> has_base o (Lower c)) /\
  (SecondCurrencyExists o p = true <-> has_pair o (base_key p) (quote_key p)) /\
  (forall p', pair.variant p p' -> SecondCurrencyExists o p' = SecondCurrencyExists o p) /\
  (SecondCurrencyExists o p = true -> FirstCurrencyExists o (FirstCurrency p) = true) /\
  (forall e x t now o' p',
     ProcessOrderbook e o p x t now = Some o' -> pair.variant p p' ->
     FirstCurrencyExists o' (FirstCurrency p') = true /\
     SecondCurrencyExists o' p' = true).
Proof.
  split; [apply FirstCurrencyExists_has_base|].
  split; [apply SecondCurrencyExists_has_pair|].
  split; [|split].
  - intros p' [Hb Hq].
    destruct (SecondCurrencyExists o p') eqn:E'; destruct (SecondCurrencyExists o p) eqn:E;
      try reflexivity.
    + apply SecondCurrencyExists_has_pair in E'. unfold base_key, quote_key in E'.
      rewrite <- Hb, <- Hq in E'. apply SecondCurrencyExists_has_pair in E'. congruence.
    + apply SecondCurrencyExists_has_pair in E. unfold base_key, quote_key in E.
      rewrite Hb, Hq in E. apply SecondCurrencyExists_has_pair in E. congruence.
  - intros H. apply SecondCurrencyExists_has_pair in H as (m1 & E1 & _).
    apply FirstCurrencyExists_has_base. exists m1. exact E1.
  - intros e x t now o' p' Hup [Hb Hq].
    rewrite ProcessOrderbook_insert3 in Hup. injection Hup as <-.
    split.
    + apply FirstCurrencyExists_has_base. apply has_base_insert3. left. exact Hb.
    + apply SecondCurrencyExists_has_pair. apply has_pair_insert3. left.
      split; [exact Hb|exact Hq].
Qed.

(** X4.  Of two upserts in a row, the first leaves no trace when both
    address the same triple (the same pair up to case and delimiter, the
    same book type); otherwise the two can be swapped. *)
Theorem upserts_overwrite_or_commute (u1 u2 : upsert) (o : Orderbooks) :
  run [u1; u2] o =
  if addresses (u_pair u2) (u_type u2) u1 then run [u2] o else run [u2; u1] o.
Proof.
  simpl. rewrite !apply_upsert_insert3. simpl. rewrite !apply_upsert_insert3. simpl.
  destruct (addresses (u_pair u2) (u_type u2) u1) eqn:E.
  - apply addresses_true_keys in E as (-> & -> & ->).
    rewrite insert3_insert3_eq. reflexivity.
  - apply addresses_false_keys in E. rewrite insert3_insert3_ne by exact E. reflexivity.
Qed.

End orderbook_more.

(** ** Further properties of the request pipeline *)

Module client_more.
Import binance binance_spec binance_facts.

#[local] Open Scope Z_scope.

Section Pipeline.
Context {Data : Type} `{!Externals Data}.

Lemma heap_decoded resp status err (result : value Data) (w : World Data) :
  heap (snd (decoded resp status err result w)) =
  match err with
  | Some _ => heap w
  | None =>
      if (200 <=? status) && (status <=? 299)
      then fst (JSONDecode resp result (heap w)) else heap w
  end.
Proof.
  unfold decoded. destruct err; [reflexivity|].
  destruct ((200 <=? status) && (status <=? 299)).
  - destruct (JSONDecode resp result (heap w)) as [h [e|]]; reflexivity.
  - destruct (JSONDecodeErrorInfo resp) as [ei [e|]]; reflexivity.
Qed.

Lemma error_decoded resp status err (result : value Data) (w : World Data) :
  snd (fst (decoded resp status err result w)) = None <->
  err = None /\ 200 <= status <= 299 /\ snd (JSONDecode resp result (heap w)) = None.
Proof.
  unfold decoded. destruct err as [e|].
  - simpl. split; [discriminate|]. intros [? _]. discriminate.
  - destruct (Z.leb_spec 200 status); destruct (Z.leb_spec status 299); simpl.
    + destruct (JSONDecode resp result (heap w)) as [h [e|]]; simpl.
      * split; [discriminate|]. intros (_ & _ & ?). discriminate.
      * split; [|reflexivity]. intros _. repeat split; assumption.
    + destruct (JSONDecodeErrorInfo resp) as [ei [e|]]; simpl;
        (split; [discriminate|]); intros (_ & ? & _); lia.
    + destruct (JSONDecodeErrorInfo resp) as [ei [e|]]; simpl;
        (split; [discriminate|]); intros (_ & ? & _); lia.
    + destruct (JSONDecodeErrorInfo resp) as [ei [e|]]; simpl;
        (split; [discriminate|]); intros (_ & ? & _); lia.
Qed.

Lemma code_decoded resp status err (result : value Data) (w : World Data) :
  snd (fst (decoded resp status err result w)) = None ->
  fst (fst (decoded resp status err result w)) = 0.
Proof.
  unfold decoded. destruct err as [e|]; [discriminate|].
  destruct ((200 <=? status) && (status <=? 299)).
  - destruct (JSONDecode resp result (heap w)) as [h [e|]]; [discriminate|reflexivity].
  - destruct (JSONDecodeErrorInfo resp) as [ei [e|]]; discriminate.
Qed.

End Pipeline.

(** X5.  [SendHTTPRequest] returns no error exactly when credentials are
    configured, the transport reports none, the status is in 200..299 and
    the body decodes into the result; the code it returns is then 0. *)
Theorem no_error_iff_decoded {Data : Type} `{!Externals Data}
    (b : Binance) (env : Env) (method path : string)
    (params : url.Values) (sign : bool) (result : value Data) (w : World Data) :
  let r := SendHTTPRequest b env method path params sign result w in
  let a := SendHTTPRequest2 env (wire_request b env method path params sign) in
  (snd (fst r) = None <->
     AuthenticatedAPISupport b = true /\ snd a = None /\
     200 <= snd (fst a) <= 299 /\
     snd (JSONDecode (fst (fst a)) result (heap w)) = None) /\
  (snd (fst r) = None -> fst (fst r) = 0).
Proof.
  cbv zeta. destruct (AuthenticatedAPISupport b) eqn:Hauth.
  - rewrite SendHTTPRequest_wire by exact Hauth. cbv zeta. split.
    + rewrite error_decoded. simpl heap. tauto.
    + apply code_decoded.
  - rewrite SendHTTPRequest_no_credentials by exact Hauth. simpl. split.
    + split; [discriminate|]. intros [? _]. discriminate.
    + discriminate.
Qed.

(** X6.  [SendHTTPRequest] hands at most one request to the transport:
    none, and no change at all, without credentials; exactly one with
    them.  It writes to memory only when the transport reports no error
    and the status is in 200..299. *)
Theorem one_request_at_most {Data : Type} `{!Externals Data}
    (b : Binance) (env : Env) (method path : string)
    (params : url.Values) (sign : bool) (result : value Data) (w : World Data) :
  let r := SendHTTPRequest b env method path params sign result w in
  let a := SendHTTPRequest2 env (wire_request b env method path params sign) in
  (AuthenticatedAPISupport b = false -> snd r = w) /\
  (AuthenticatedAPISupport b = true ->
     sent (snd r) = (sent w ++ [wire_request b env method path params sign])%list) /\
  (heap (snd r) <> heap w ->
     AuthenticatedAPISupport b = true /\ snd a = None /\ 200 <= snd (fst a) <= 299).
Proof.
  cbv zeta. split; [|split].
  - intros Hauth. rewrite SendHTTPRequest_no_credentials by exact Hauth. reflexivity.
  - intros Hauth. apply sent_SendHTTPRequest. exact Hauth.
  - destruct (AuthenticatedAPISupport b) eqn:Hauth.
    + rewrite SendHTTPRequest_wire by exact Hauth. cbv zeta. rewrite heap_decoded.
      simpl heap.
      destruct (SendHTTPRequest2 env _) as [[resp status] [e|]]; simpl.
      * intros Hne. exfalso. apply Hne. reflexivity.
      * destruct (Z.leb_spec 200 status); destruct (Z.leb_spec status 299); simpl;
          intros Hne; try (exfalso; apply Hne; reflexivity).
        repeat split; assumption.
    + rewrite SendHTTPRequest_no_credentials by exact Hauth. simpl.
      intros Hne. exfalso. apply Hne. reflexivity.
Qed.

(** X7.  An unsigned call carries nothing of the credentials or of the
    clock: its payload is the encoded parameters alone, it has no
    [X-MBX-APIKEY] header, and any client with credentials, under any
    surrounding, sends the same request. *)
Theorem unsigned_request_is_plain {Data : Type} `{!Externals Data}
    (b : Binance) (env : Env) (method path : string)
    (params : url.Values) (result : value Data) (w : World Data) :
  AuthenticatedAPISupport b = true ->
  exists req,
    sent (snd (SendHTTPRequest b env method path params false result w)) =
      (sent w ++ [req])%list /\
    req_headers req !! "X-MBX-APIKEY" = None /\
    (if String.eqb method "GET"
     then req_url req = binanceBaseURL +:+ path +:+ "?" +:+ url.Encode params /\
          req_body req = None
     else req_url req = binanceBaseURL +:+ path /\
          req_body req = Some (url.Encode params)) /\
    (forall b' env' (result' : value Data) (w' : World Data),
       AuthenticatedAPISupport b' = true ->
       sent (snd (SendHTTPRequest b' env' method path params false result' w')) =
         (sent w' ++ [req])%list).
Proof.
  intros Hauth. exists (wire_request b env method path params false).
  split; [apply sent_SendHTTPRequest, Hauth|].
  split; [|split].
  - unfold wire_request. destruct (String.eqb method "GET"); reflexivity.
  - unfold wire_request. destruct (String.eqb method "GET"); simpl; auto.
  - intros b' env' result' w' Hauth'.
    rewrite sent_SendHTTPRequest by exact Hauth'. reflexivity.
Qed.

Lemma unsigned_request_is_plain_witness :
  exists req,
    sent (snd (SendHTTPRequest (sample_client true) (sample_env 5 "{ok}" 200 None)
                 "GET" binanceDepthPath (url.Values_Set ∅ "symbol" "BTC/USDT")
                 false Nil sample_world)) = [req] /\
    req_url req = "https://www.binance.com/api/v1/depth?symbol=BTC%2FUSDT" /\
    req_headers req !! "X-MBX-APIKEY" = None.
Proof.
  destruct (unsigned_request_is_plain (sample_client true) (sample_env 5 "{ok}" 200 None)
              "GET" binanceDepthPath (url.Values_Set ∅ "symbol" "BTC/USDT")
              Nil sample_world eq_refl) as (req & Hsent & Hkey & Hurl & _).
  exists req. split; [exact Hsent|]. split; [|exact Hkey].
  simpl in Hurl. destruct Hurl as [-> _]. vm_compute. reflexivity.
Defined.



End client_more.

(** ** Properties of the account and order calls *)

Module orders_more.
Import binance binance_spec binance_facts.

#[local] Open Scope Z_scope.

Section Calls.
Context {Data : Type} `{!Externals Data}.

Lemma sent_alloc (w : World Data) (d : Data) : sent (snd (alloc w d)) = sent w.
Proof. reflexivity. Qed.

Lemma alloc_fresh (w : World Data) (d : Data) : fst (alloc w d) ∉ dom (heap w).
Proof. unfold alloc. simpl. apply is_fresh. Qed.

(** A request sent right after [response := T{}]. *)
Lemma sent_after_alloc b env method path v sign T (d : Data) (w : World Data) :
  AuthenticatedAPISupport b = true ->
  sent (snd (SendHTTPRequest b env method path v sign
               (Ptr T (Some (fst (alloc w d)))) (snd (alloc w d)))) =
  (sent w ++ [wire_request b env method path v sign])%list.
Proof. intros Hauth. rewrite sent_SendHTTPRequest by exact Hauth. reflexivity. Qed.

Lemma signed_payload_empty secret ns :
  signed_payload secret ∅ ns =
  ("timestamp=" +:+ fmt.decimal (ns ÷ 1000000) +:+ "&recvWindow=5000") +:+
  "&signature=" +:+
  hex.EncodeToString
    (GetHMAC HashSHA256
       (list_byte_of_string
          ("timestamp=" +:+ fmt.decimal (ns ÷ 1000000) +:+ "&recvWindow=5000"))
       (list_byte_of_string secret)).
Proof.
  unfold signed_payload, signature, signed_text. rewrite Encode_empty. reflexivity.
Qed.

End Calls.

Ltac keys_of H :=
  repeat (apply lookup_insert_is_Some in H; destruct H as [ <- | [_ H] ]; [tauto|]);
  rewrite lookup_empty in H; destruct H as [? H]; discriminate H.

(** X9.  With credentials, [FetchAccountInfo] and [FetchOpenOrders] each
    send one signed GET whose query is the time stamp, the receive window
    and the signature of those two, with nothing before [timestamp]; the
    pointer [FetchAccountInfo] returns is to a cell that did not exist
    before the call. *)
Theorem account_queries_are_signed_gets {Data : Type} `{!Externals Data}
    (AccountInfo_zero Orders_empty : Data) (b : Binance) (env : Env) (w : World Data) :
  AuthenticatedAPISupport b = true ->
  let text :=
    "timestamp=" +:+ fmt.decimal (now_UnixNano env ÷ 1000000) +:+ "&recvWindow=5000" in
  let query :=
    text +:+ "&signature=" +:+
    hex.EncodeToString
      (GetHMAC HashSHA256 (list_byte_of_string text)
         (list_byte_of_string (APISecret b))) in
  let headers : gmap string (list string) :=
    <[ "X-MBX-APIKEY" := [APIKey b] ]> {[ "Accept" := ["application/json"] ]} in
  sent (snd (FetchAccountInfo AccountInfo_zero b env w)) =
    (sent w ++ [mkRequest "GET" (binanceBaseURL +:+ binanceAccountPath +:+ "?" +:+ query)
                  headers None])%list /\
  sent (snd (FetchOpenOrders Orders_empty b env w)) =
    (sent w ++ [mkRequest "GET" (binanceBaseURL +:+ binanceOpenOrdersPath +:+ "?" +:+ query)
                  headers None])%list /\
  fst (fst (FetchAccountInfo AccountInfo_zero b env w)) ∉ dom (heap w).
Proof.
  intros Hauth. cbv zeta. split; [|split].
  - unfold FetchAccountInfo.
    pose proof (sent_after_alloc b env "GET" binanceAccountPath ∅ true
                  "AccountInfo" AccountInfo_zero w Hauth) as Hs.
    unfold alloc in *. cbn [fst snd] in Hs.
    destruct (SendHTTPRequest b env "GET" binanceAccountPath ∅ true _ _) as [[c e] w'].
    cbn [fst snd] in *. rewrite Hs. unfold wire_request.
    rewrite signed_payload_empty. reflexivity.
  - unfold FetchOpenOrders.
    pose proof (sent_after_alloc b env "GET" binanceOpenOrdersPath ∅ true
                  "[]Order" Orders_empty w Hauth) as Hs.
    unfold alloc in *. cbn [fst snd] in Hs.
    destruct (SendHTTPRequest b env "GET" binanceOpenOrdersPath ∅ true _ _) as [[c e] w'].
    cbn [fst snd] in *. rewrite Hs. unfold wire_request.
    rewrite signed_payload_empty. reflexivity.
  - unfold FetchAccountInfo.
    pose proof (alloc_fresh w AccountInfo_zero) as Hf. unfold alloc in *.
    cbn [fst snd] in Hf.
    destruct (SendHTTPRequest b env "GET" binanceAccountPath ∅ true _ _) as [[c e] w'].
    exact Hf.
Qed.

Lemma account_queries_are_signed_gets_witness :
  req_url <$> sent (snd (FetchAccountInfo "{}" (sample_client true)
                           (sample_env 5 "{ok}" 200 None) sample_world)) =
    ["https://www.binance.com/api/v3/account?timestamp=5000&recvWindow=5000&signature=7365637265747469"].
Proof.
  destruct (account_queries_are_signed_gets "{}" "[]" (sample_client true)
              (sample_env 5 "{ok}" 200 None) sample_world eq_refl) as (H1 & _ & _).
  cbv zeta in H1. rewrite H1. vm_compute. reflexivity.
Defined.

(** X10.  With credentials, [FetchOrder] and [DeleteOrder] sign the same
    parameters: [symbol] always, [orderId] when the order id is not 0,
    [origClientOrderId] when the client order id is not empty, and nothing
    else; the request goes out also when neither id is given.  [FetchOrder]
    sends them in the query of a GET, [DeleteOrder] in the form-encoded body
    of a DELETE. *)
Theorem order_lookup_and_cancel {Data : Type} `{!Externals Data}
    (Order_zero DeleteOrderResponse_zero : Data) (b : Binance) (env : Env)
    (symbol : string) (orderID : Z) (clientOrderID : string) (w : World Data) :
  AuthenticatedAPISupport b = true ->
  exists v : gmap string (list string),
    v !! "symbol" = Some [symbol] /\
    v !! "orderId" = (if orderID =? 0 then None else Some [fmt.decimal orderID]) /\
    v !! "origClientOrderId" =
      (if String.eqb clientOrderID "" then None else Some [clientOrderID]) /\
    (forall k, is_Some (v !! k) ->
       k = "symbol" \/ k = "orderId" \/ k = "origClientOrderId") /\
    let payload := signed_payload (APISecret b) v (now_UnixNano env) in
    let headers : gmap string (list string) :=
      <[ "X-MBX-APIKEY" := [APIKey b] ]> {[ "Accept" := ["application/json"] ]} in
    sent (snd (FetchOrder Order_zero b env symbol orderID clientOrderID w)) =
      (sent w ++ [mkRequest "GET" (binanceBaseURL +:+ binanceOrderPath +:+ "?" +:+ payload)
                    headers None])%list /\
    sent (snd (DeleteOrder DeleteOrderResponse_zero b env symbol orderID clientOrderID w)) =
      (sent w ++ [mkRequest "DELETE" (binanceBaseURL +:+ binanceOrderPath)
                    (<[ "Content-Type" := ["application/x-www-form-urlencoded"] ]> headers)
                    (Some payload)])%list.
Proof.
  intros Hauth. exists (order_values symbol orderID clientOrderID).
  split; [|split; [|split; [|split]]].
  - unfold order_values.
    destruct (orderID =? 0); destruct (String.eqb clientOrderID ""); reflexivity.
  - unfold order_values.
    destruct (orderID =? 0); destruct (String.eqb clientOrderID ""); reflexivity.
  - unfold order_values.
    destruct (orderID =? 0); destruct (String.eqb clientOrderID ""); reflexivity.
  - intros k Hk. unfold order_values, url.Values_Set in Hk.
    destruct (orderID =? 0); destruct (String.eqb clientOrderID "");
      simpl negb in Hk; cbv iota in Hk; keys_of Hk.
  - cbv zeta. split.
    + unfold FetchOrder.
      pose proof (sent_after_alloc b env "GET" binanceOrderPath
                    (order_values symbol orderID clientOrderID) true
                    "Order" Order_zero w Hauth) as Hs.
      unfold alloc in *. cbn [fst snd] in Hs.
      destruct (SendHTTPRequest b env "GET" binanceOrderPath _ true _ _) as [[c e] w'].
      cbn [fst snd] in *. rewrite Hs. reflexivity.
    + unfold DeleteOrder.
      pose proof (sent_after_alloc b env "DELETE" binanceOrderPath
                    (order_values symbol orderID clientOrderID) true
                    "DeleteOrderResponse" DeleteOrderResponse_zero w Hauth) as Hs.
      unfold alloc in *. cbn [fst snd] in Hs.
      destruct (SendHTTPRequest b env "DELETE" binanceOrderPath _ true _ _) as [[c e] w'].
      cbn [fst snd] in *. rewrite Hs. reflexivity.
Qed.

Lemma order_lookup_and_cancel_witness :
  req_url <$> sent (snd (FetchOrder "{}" (sample_client true)
                           (sample_env 5 "{ok}" 200 None) "BTCUSDT" 0 "" sample_world)) =
    ["https://www.binance.com/api/v3/order?symbol=BTCUSDT&timestamp=5000&recvWindow=5000&signature=7365637265747379"].
Proof.
  destruct (order_lookup_and_cancel "{}" "{}" (sample_client true)
              (sample_env 5 "{ok}" 200 None) "BTCUSDT" 0 "" sample_world eq_refl)
    as (v & Hsym & Hid & Hcl & Hkeys & Hget & _).
  cbv zeta in Hget. rewrite Hget.
  assert (v = url.Values_Set ∅ "symbol" "BTCUSDT") as ->.
  { apply map_eq. intros k. unfold url.Values_Set.
    destruct (decide (k = "symbol")) as [->|Hne].
    - rewrite Hsym. reflexivity.
    - rewrite lookup_insert_ne by congruence. rewrite lookup_empty.
      destruct (v !! k) eqn:E; [|reflexivity].
      destruct (Hkeys k ltac:(eauto)) as [ -> | [ -> | -> ] ];
        [congruence| rewrite Hid in E; discriminate | rewrite Hcl in E; discriminate]. }
  vm_compute. reflexivity.
Defined.

Ltac keys_in H :=
  repeat (apply lookup_insert_is_Some in H; destruct H as [ <- | [_ H] ];
          [simpl; tauto|]);
  rewrite lookup_empty in H; destruct H as [? H]; discriminate H.

(** X11.  With credentials, [PostOrderAck] sends one signed POST whose
    form-encoded body carries [symbol], [side], [type], [timeInForce],
    [quantity], [price] and [newOrderRespType=ACK] always,
    [newClientOrderId] when it is not empty, [stopPrice] and [icebergQty]
    when they are not zero, and nothing else; it goes to the test path
    exactly when [ValidateOnly] is set. *)
Theorem post_order_parameters {Data : Type} `{!Externals Data}
    (PostOrderAckResponse_zero : Data) (FormatFloat : float -> string)
    (b : Binance) (env : Env) (params : PostOrderParams) (w : World Data) :
  AuthenticatedAPISupport b = true ->
  exists v : gmap string (list string),
    v !! "symbol" = Some [Symbol params] /\
    v !! "side" = Some [Side params] /\
    v !! "type" = Some [Type' params] /\
    v !! "timeInForce" = Some [TimeInForce params] /\
    v !! "quantity" = Some [FormatFloat (Quantity params)] /\
    v !! "price" = Some [FormatFloat (Price params)] /\
    v !! "newOrderRespType" = Some ["ACK"] /\
    v !! "newClientOrderId" =
      (if String.eqb (NewClientOrderID params) "" then None
       else Some [NewClientOrderID params]) /\
    v !! "stopPrice" =
      (if PrimFloat.eqb (StopPrice params) 0 then None
       else Some [FormatFloat (StopPrice params)]) /\
    v !! "icebergQty" =
      (if PrimFloat.eqb (IcebergQty params) 0 then None
       else Some [FormatFloat (IcebergQty params)]) /\
    (forall k, is_Some (v !! k) ->
       In k ["symbol"; "side"; "type"; "timeInForce"; "quantity"; "price";
             "newOrderRespType"; "newClientOrderId"; "stopPrice"; "icebergQty"]) /\
    sent (snd (PostOrderAck PostOrderAckResponse_zero FormatFloat b env params w)) =
      (sent w ++
       [mkRequest "POST"
          (binanceBaseURL +:+
           (if ValidateOnly params then binanceOrderTestPath else binanceOrderPath))
          (<[ "Content-Type" := ["application/x-www-form-urlencoded"] ]>
             (<[ "X-MBX-APIKEY" := [APIKey b] ]> {[ "Accept" := ["application/json"] ]}))
          (Some (signed_payload (APISecret b) v (now_UnixNano env)))])%list.
Proof.
  intros Hauth. exists (post_order_values FormatFloat params).
  repeat match goal with |- _ /\ _ => split end.
  1-10: unfold post_order_values;
    destruct (String.eqb (NewClientOrderID params) "");
    destruct (PrimFloat.eqb (StopPrice params) 0);
    destruct (PrimFloat.eqb (IcebergQty params) 0); reflexivity.
  - intros k Hk. unfold post_order_values, url.Values_Set in Hk.
    destruct (String.eqb (NewClientOrderID params) "");
      destruct (PrimFloat.eqb (StopPrice params) 0);
      destruct (PrimFloat.eqb (IcebergQty params) 0);
      simpl negb in Hk; cbv iota in Hk; keys_in Hk.
  - unfold PostOrderAck.
    pose proof (sent_after_alloc b env "POST"
                  (if ValidateOnly params then binanceOrderTestPath else binanceOrderPath)
                  (post_order_values FormatFloat params) true
                  "PostOrderAckResponse" PostOrderAckResponse_zero w Hauth) as Hs.
    unfold alloc in *. cbn [fst snd] in Hs. cbv zeta.
    destruct (SendHTTPRequest b env "POST" _ _ true _ _) as [[c e] w'].
    cbn [fst snd] in *. rewrite Hs. unfold wire_request.
    destruct (ValidateOnly params); reflexivity.
Qed.

Lemma post_order_parameters_witness :
  (fun r => (req_method r, req_url r)) <$>
    sent (snd (PostOrderAck "{}" (fun _ => "1") (sample_client true)
                 (sample_env 5 "{ok}" 200 None) sample_order sample_world)) =
    [("POST", "https://www.binance.com/api/v3/order/test")].
Proof.
  destruct (post_order_parameters "{}" (fun _ => "1") (sample_client true)
              (sample_env 5 "{ok}" 200 None) sample_order sample_world eq_refl)
    as (v & H). do 11 (destruct H as [_ H]).
  rewrite H. reflexivity.
Defined.

(** X12.  With credentials, [FetchMarketData] sends one unsigned GET whose
    query carries [symbol] always and [limit] exactly when the limit is
    above -1, as its decimal numeral; the pointer it returns is to a cell
    that did not exist before the call. *)
Theorem depth_limit_parameter {Data : Type} `{!Externals Data}
    (b : Binance) (env : Env) (symbol : string) (limit : Z) (w : World Data) :
  AuthenticatedAPISupport b = true ->
  let query :=
    if limit >? -1
    then "limit=" +:+ url.QueryEscape (fmt.decimal limit) +:+
         "&symbol=" +:+ url.QueryEscape symbol
    else "symbol=" +:+ url.QueryEscape symbol in
  sent (snd (FetchMarketData b env symbol limit w)) =
    (sent w ++ [mkRequest "GET" (binanceBaseURL +:+ binanceDepthPath +:+ "?" +:+ query)
                  {[ "Accept" := ["application/json"] ]} None])%list /\
  fst (fst (FetchMarketData b env symbol limit w)) ∉ dom (heap w).
Proof.
  intros Hauth. cbv zeta. unfold FetchMarketData.
  rewrite (surjective_pairing (SendHTTPRequest _ _ _ _ _ _ _ _)).
  rewrite (surjective_pairing (fst (SendHTTPRequest _ _ _ _ _ _ _ _))).
  cbn [fst snd]. split; [|apply is_fresh].
  rewrite sent_SendHTTPRequest by exact Hauth. unfold wire_request. cbn [sent].
  destruct (limit >? -1).
  - rewrite Encode_symbol_limit. reflexivity.
  - rewrite Encode_symbol. reflexivity.
Qed.

Lemma depth_limit_parameter_witness :
  req_url <$> sent (snd (FetchMarketData (sample_client true)
                           (sample_env 5 "{bids}" 200 None) "BTCUSDT" 1000 sample_world)) =
    ["https://www.binance.com/api/v1/depth?limit=1000&symbol=BTCUSDT"].
Proof.
  destruct (depth_limit_parameter (sample_client true) (sample_env 5 "{bids}" 200 None)
              "BTCUSDT" 1000 sample_world eq_refl) as [H _].
  cbv zeta in H. rewrite H. vm_compute. reflexivity.
Defined.

Lemma lower_upper_byte (c : ascii) :
  pair.lower_byte (pair.upper_byte c) = pair.lower_byte c.
Proof. destruct c as [[] [] [] [] [] [] [] []]; reflexivity. Qed.

Lemma Lower_Upper (c : string) : pair.Lower (pair.Upper c) = pair.Lower c.
Proof.
  unfold pair.Lower, pair.Upper. induction c as [|a c IH]; simpl; [reflexivity|].
  rewrite lower_upper_byte, IH. reflexivity.
Qed.

(** X13.  [SymbolToCurrencyPair] looks the symbol up as it is written: it
    returns no error exactly when the symbol is a key of the instrument
    map; for any other symbol, also one that differs from a key in case
    only, it returns the empty pair and an error that quotes the symbol.
    A pair it finds comes back with the configured request delimiter and
    names the currencies of the stored pair, up to letter case. *)
Theorem unknown_symbol_is_an_error (b : Symbols) (symbol : string) :
  (snd (SymbolToCurrencyPair b symbol) = None <->
     is_Some (currencyPairs b !! symbol)) /\
  (currencyPairs b !! symbol = None ->
     SymbolToCurrencyPair b symbol =
       (pair.mkCurrencyPair "" "" "",
        Some ("no currency pair found for '" +:+ symbol +:+ "' symbol"))) /\
  (forall info, currencyPairs b !! symbol = Some info ->
     pair.Delimiter (fst (SymbolToCurrencyPair b symbol)) =
       Delimiter (RequestCurrencyPairFormat b) /\
     pair.variant (fst (SymbolToCurrencyPair b symbol)) (Currency info)).
Proof.
  unfold SymbolToCurrencyPair. destruct (currencyPairs b !! symbol) as [info|] eqn:E.
  - split; [split; eauto|]. split; [discriminate|].
    intros info' [= <-]. split; [reflexivity|].
    unfold pair.variant, pair.FormatPair. simpl.
    destruct (Uppercase (RequestCurrencyPairFormat b));
      split; first [apply Lower_Upper|apply pair_facts.Lower_idem].
  - split; [split; [discriminate|intros [? ?]; discriminate]|].
    split; [|discriminate]. intros _. reflexivity.
Qed.

(** X14.  The fetching calls return their response even when they fail:
    without credentials [FetchAccountInfo], [PostOrderAck], [FetchOrder] and
    [FetchMarketData] return the credentials error together with a pointer,
    never nil, to a newly made response holding the zero value, and
    [FetchOpenOrders] returns the error with the empty list; none of them
    hands a request to the transport or changes a cell that existed. *)
Theorem refused_fetch_returns_zero_response {Data : Type} `{!Externals Data}
    (AccountInfo_zero Orders_empty PostOrderAckResponse_zero Order_zero : Data)
    (FormatFloat : float -> string) (b : Binance) (env : Env)
    (params : PostOrderParams) (symbol : string) (orderID : Z)
    (clientOrderID : string) (limit : Z) (w : World Data) :
  AuthenticatedAPISupport b = false ->
  let refusal :=
    Some (fmt.Sprintf WarningAuthenticatedRequestWithoutCredentialsSet [Name b]) in
  exists p : addr,
    (p ∉ dom (heap w)) /\
    FetchAccountInfo AccountInfo_zero b env w =
      ((p, refusal), {| heap := <[ p := AccountInfo_zero ]> (heap w); sent := sent w |}) /\
    FetchOpenOrders Orders_empty b env w =
      ((Orders_empty, refusal),
       {| heap := <[ p := Orders_empty ]> (heap w); sent := sent w |}) /\
    PostOrderAck PostOrderAckResponse_zero FormatFloat b env params w =
      ((p, refusal),
       {| heap := <[ p := PostOrderAckResponse_zero ]> (heap w); sent := sent w |}) /\
    FetchOrder Order_zero b env symbol orderID clientOrderID w =
      ((p, refusal), {| heap := <[ p := Order_zero ]> (heap w); sent := sent w |}) /\
    FetchMarketData b env symbol limit w =
      ((p, refusal), {| heap := <[ p := MarketData_zero ]> (heap w); sent := sent w |}).
Proof.
  intros Hauth. cbv zeta. exists (fresh (dom (heap w))).
  split; [apply is_fresh|].
  unfold FetchAccountInfo, FetchOpenOrders, PostOrderAck, FetchOrder,
    FetchMarketData, alloc.
  cbv zeta. rewrite !SendHTTPRequest_no_credentials by exact Hauth.
  cbn [heap sent]. rewrite lookup_insert_eq. simpl.
  repeat split.
Qed.

Lemma refused_fetch_returns_zero_response_witness :
  snd (fst (FetchMarketData (sample_client false) (sample_env 5 "{bids}" 200 None)
              "BTCUSDT" 5 sample_world)) =
    Some "WARNING -- Exchange Binance authenticated HTTP request called but not supported due to unset/default API keys." /\
  sent (snd (FetchMarketData (sample_client false) (sample_env 5 "{bids}" 200 None)
               "BTCUSDT" 5 sample_world)) = [].
Proof.
  destruct (refused_fetch_returns_zero_response "{}" "[]" "{}" "{}" (fun _ => "1")
              (sample_client false) (sample_env 5 "{bids}" 200 None) sample_order
              "BTCUSDT" 0 "" 5 sample_world eq_refl)
    as (p & _ & _ & _ & _ & _ & H).
  rewrite H. split; reflexivity.
Defined.

End orders_more.

(** ** Further properties of the rate limiter *)

Module limiter_more.
Import binance binance_spec binance_facts.

#[local] Open Scope Z_scope.

Section Admission.
Context {Data : Type} `{!Externals Data}.

(** A call that finds the window count below the budget: lines 264-265,
    then lines 284-285. *)
Lemma rate_limited_admitted n b env method path params (result dv : value Data)
    (w : World Data) :
  count_found b env method path < n ->
  SendRateLimitedHTTPRequest b env n method path params result dv w =
  network_path
    (with_rateLimits b
       (<[ method +:+ path :=
             mkRateLimitInfo
               (if window_over b env method path then now_Unix env
                else StartTime (entry b method path))
               (wrap_uint (count_found b env method path + 1)) ]> (rateLimits b)))
    env method path params result w.
Proof.
  intros Hn. unfold SendRateLimitedHTTPRequest.
  change (match rateLimits b !! (method +:+ path) with
          | Some rl => rl
          | None => mkRateLimitInfo 0 0
          end) with (entry b method path).
  unfold count_found, window_over in *.
  destruct ((StartTime (entry b method path) =? 0) ||
            (wrap_int64 (now_Unix env - StartTime (entry b method path)) >? 90));
    simpl in *.
  - assert ((0 <? n) = true) as -> by (apply Z.ltb_lt; exact Hn).
    unfold network_path.
    destruct (SendHTTPRequest _ env method path params true result w) as [[c e] w'].
    reflexivity.
  - assert ((RequestCount (entry b method path) <? n) = true) as ->
      by (apply Z.ltb_lt; exact Hn).
    unfold network_path.
    destruct (SendHTTPRequest _ env method path params true result w) as [[c e] w'].
    reflexivity.
Qed.

Lemma entry_with_rateLimits b method path rl :
  entry (with_rateLimits b (<[ method +:+ path := rl ]> (rateLimits b))) method path = rl.
Proof. unfold entry. simpl. rewrite lookup_insert_eq. reflexivity. Qed.

Lemma network_path_client b env method path params (result : value Data)
    (w : World Data) :
  snd (fst (network_path b env method path params result w)) = b.
Proof. reflexivity. Qed.

End Admission.

(** X15.  The limiter counts a call before it sends it: a call that finds
    the window count below the budget adds one to the count whatever
    becomes of the request.  Without credentials the call returns the
    credentials error and hands nothing to the transport, and with
    credentials but a failing transport it returns the transport's error
    and stores nothing; the slot of the window is spent all the same. *)
Theorem slot_is_spent_before_sending {Data : Type} `{!Externals Data}
    (n : Z) (b : Binance) (env : Env) (method path : string) (params : url.Values)
    (result dv : value Data) (w : World Data) :
  count_found b env method path < n ->
  let r := SendRateLimitedHTTPRequest b env n method path params result dv w in
  RequestCount (entry (snd (fst r)) method path) =
    wrap_uint (count_found b env method path + 1) /\
  (AuthenticatedAPISupport b = false ->
     fst (fst r) =
       Returned (Some (fmt.Sprintf WarningAuthenticatedRequestWithoutCredentialsSet
                         [Name b])) /\
     snd r = w) /\
  (AuthenticatedAPISupport b = true ->
     forall e,
       snd (SendHTTPRequest2 env (wire_request b env method path params true)) = Some e ->
       fst (fst r) = Returned (Some e) /\
       heap (snd r) = heap w /\
       sent (snd r) = (sent w ++ [wire_request b env method path params true])%list).
Proof.
  intros Hn. cbv zeta. rewrite (rate_limited_admitted n) by exact Hn.
  unfold network_path. cbn [fst snd]. split; [rewrite entry_with_rateLimits; reflexivity|].
  split.
  - intros Hauth. rewrite SendHTTPRequest_no_credentials by exact Hauth.
    split; reflexivity.
  - intros Hauth e He. rewrite SendHTTPRequest_wire by exact Hauth. cbv zeta.
    change (wire_request (with_rateLimits b _) env method path params true)
      with (wire_request b env method path params true).
    rewrite He. unfold decoded. cbn [fst snd heap sent]. auto.
Qed.

Lemma slot_is_spent_before_sending_witness :
  RequestCount
    (entry (snd (fst (SendRateLimitedHTTPRequest (sample_client false)
                        (sample_env 1000 "{ok}" 200 None) 3 "GET" binanceAccountPath ∅
                        (Ptr "AccountInfo" (Some 0%nat)) (Val "AccountInfo" "default")
                        sample_world))) "GET" binanceAccountPath) = 1 /\
  snd (SendRateLimitedHTTPRequest (sample_client false)
         (sample_env 1000 "{ok}" 200 None) 3 "GET" binanceAccountPath ∅
         (Ptr "AccountInfo" (Some 0%nat)) (Val "AccountInfo" "default")
         sample_world) = sample_world.
Proof.
  assert (Hn : count_found (sample_client false) (sample_env 1000 "{ok}" 200 None)
                 "GET" binanceAccountPath < 3) by reflexivity.
  destruct (slot_is_spent_before_sending 3 (sample_client false)
              (sample_env 1000 "{ok}" 200 None) "GET" binanceAccountPath ∅
              (Ptr "AccountInfo" (Some 0%nat)) (Val "AccountInfo" "default")
              sample_world Hn) as (Hcount & Hno & _).
  split; [rewrite Hcount; reflexivity|].
  exact (proj2 (Hno eq_refl)).
Defined.

(** X16.  A rate-limited call touches the window record of its own
    endpoint only: the record stored under any other key, that is, for any
    method and path whose concatenation differs, is what it was, and so
    are the client's name, flags, key and secret.  After the call the
    endpoint has a record, and the transport has been handed the requests
    it had been handed before and at most one more. *)
Theorem limiter_touches_one_endpoint {Data : Type} `{!Externals Data}
    (n : Z) (b : Binance) (env : Env) (method path : string) (params : url.Values)
    (result dv : value Data) (w : World Data) :
  let r := SendRateLimitedHTTPRequest b env n method path params result dv w in
  (forall method' path',
     method' +:+ path' <> method +:+ path ->
     rateLimits (snd (fst r)) !! (method' +:+ path') = rateLimits b !! (method' +:+ path')) /\
  is_Some (rateLimits (snd (fst r)) !! (method +:+ path)) /\
  (Name (snd (fst r)), Verbose (snd (fst r)), AuthenticatedAPISupport (snd (fst r)),
   APIKey (snd (fst r)), APISecret (snd (fst r))) =
    (Name b, Verbose b, AuthenticatedAPISupport b, APIKey b, APISecret b) /\
  (sent (snd r) = sent w \/
   sent (snd r) = (sent w ++ [wire_request b env method path params true])%list).
Proof.
  cbv zeta. rewrite race_facts.rate_limited_accounting. cbv zeta.
  destruct (race.admitted n (now_Unix env) (entry b method path)).
  - unfold network_path. cbn [fst snd].
    split; [intros m' p' Hne; simpl; apply lookup_insert_ne; congruence|].
    split; [simpl; rewrite lookup_insert_eq; eauto|].
    split; [reflexivity|].
    destruct (AuthenticatedAPISupport b) eqn:Hauth.
    + right. rewrite sent_SendHTTPRequest by exact Hauth. reflexivity.
    + left. rewrite SendHTTPRequest_no_credentials by exact Hauth. reflexivity.
  - unfold default_path. cbn [fst snd].
    split; [intros m' p' Hne; simpl; apply lookup_insert_ne; congruence|].
    split; [simpl; rewrite lookup_insert_eq; eauto|].
    split; [reflexivity|]. left. reflexivity.
Qed.

(** X17.  A window start of 0 stands for "no window": a call that finds it
    opens a window at its own clock reading with count 1, whatever the
    count was.  So while the clock reads 0, the limiter never holds a call
    back under a budget of one or more: every call of any sequence goes to
    the network and leaves the count at 1. *)
Theorem window_opened_at_zero_never_fills {Data : Type} `{!Externals Data}
    (n : Z) (method path : string) (cs : list Call) (b : Binance) (w : World Data) :
  0 < n ->
  StartTime (entry b method path) = 0 ->
  Forall (fun c => now_Unix (c_env c) = 0) cs ->
  every_call_sent n method path cs b w.
Proof.
  intros Hn Hstart Hcs. revert b w Hstart.
  induction Hcs as [|c cs Hc Hcs IH]; intros b w Hstart; [exact I|].
  assert (Hover : window_over b (c_env c) method path = true).
  { unfold window_over. rewrite Hstart. reflexivity. }
  assert (Hcount : count_found b (c_env c) method path = 0).
  { unfold count_found. rewrite Hover. reflexivity. }
  simpl. unfold call at 1 2 3 4 5.
  rewrite (rate_limited_admitted n) by (rewrite Hcount; exact Hn).
  rewrite Hover, Hcount, Hc, !network_path_client.
  split; [reflexivity|]. split; [rewrite entry_with_rateLimits; reflexivity|].
  apply IH. rewrite entry_with_rateLimits. reflexivity.
Qed.

Lemma window_opened_at_zero_never_fills_witness :
  every_call_sent 1 "GET" binanceAccountPath
    [sample_call 0; sample_call 0; sample_call 0] (sample_client true) sample_world.
Proof.
  apply window_opened_at_zero_never_fills.
  - reflexivity.
  - reflexivity.
  - repeat constructor.
Defined.

(** X18.  A held-back call whose default value is not nil but cannot be
    stored in what the result points to, being of a type that is not
    assignable to it or a nil pointer, does not return an error: the
    reflective assignment panics, with nothing stored and no request
    made. *)
Theorem unassignable_default_panics {Data : Type} `{!Externals Data}
    (n : Z) (b : Binance) (env : Env) (method path : string) (params : url.Values)
    (T : string) (a : addr) (dv : value Data) (w : World Data) :
  n <= count_found b env method path ->
  dv <> Nil ->
  default_content T dv (heap w) = None ->
  let r := SendRateLimitedHTTPRequest b env n method path params
             (Ptr T (Some a)) dv w in
  fst (fst r) = Panicked /\ heap (snd r) = heap w /\ sent (snd r) = sent w.
Proof.
  intros Hn Hdv Hnone. cbv zeta.
  rewrite ratelimit_props.rate_limited_exhausted by exact Hn.
  unfold default_path, setResultToDefault. cbn [fst snd].
  destruct dv as [|T' d|T' [a'|]]; simpl in *.
  - congruence.
  - destruct (AssignableTo T' T); [discriminate|]. auto.
  - destruct (AssignableTo T' T).
    + rewrite Hnone. auto.
    + destruct (heap w !! a'); auto.
  - auto.
Qed.

Lemma unassignable_default_panics_witness :
  fst (fst (SendRateLimitedHTTPRequest exhausted_client
              (sample_env 1010 "{ok}" 200 None) 3 "GET" binanceAccountPath ∅
              (Ptr "AccountInfo" (Some 0%nat)) (Val "Order" "default")
              sample_world)) = Panicked.
Proof.
  assert (Hn : 3 <= count_found exhausted_client (sample_env 1010 "{ok}" 200 None)
                      "GET" binanceAccountPath) by (vm_compute; discriminate).
  assert (Hdv : Val "Order" "default" <> @Nil string) by discriminate.
  exact (proj1 (unassignable_default_panics 3 exhausted_client
                  (sample_env 1010 "{ok}" 200 None) "GET" binanceAccountPath ∅
                  "AccountInfo" 0%nat (Val "Order" "default") sample_world
                  Hn Hdv eq_refl)).
Defined.

End limiter_more.
